(** * chttp: the JA3 fingerprint compiler [StringToSpec] of tlsextensions.go

    A shallow embedding of [parseUserAgent], [genMap] and the method
    [StringToSpec] of [TLSExtensions], together with the pieces of the Go
    standard library and of utls they call, and the properties of the
    compiler stated in the specification. *)

From Stdlib Require Import ZArith Ascii String List Lia Bool.
From stdpp Require Import base option list strings gmap fin_maps.

Local Open Scope Z_scope.

(** ** Go's [strings] package, as far as the compiler uses it

    A Go string is a sequence of bytes; [string] (a list of [ascii], each
    one byte) is exactly that. *)
Module GoStrings.

Definition byteOf (c : ascii) : Z := Z.of_N (N_of_ascii c).

Definition isUpper (c : ascii) : bool := (65 <=? byteOf c) && (byteOf c <=? 90).

(** [utf8.RuneSelf] is 0x80: bytes below it are single-byte runes. *)
Definition RuneSelf : Z := 128.

Fixpoint isASCII (s : string) : bool :=
  match s with
  | EmptyString => true
  | String c s' => if byteOf c >=? RuneSelf then false else isASCII s'
  end.

(** [c += 'a' - 'A'] on a byte. *)
Definition toLowerByte (c : ascii) : ascii :=
  if isUpper c then ascii_of_N (Z.to_N ((byteOf c + 32) mod 256)) else c.

Fixpoint lowerASCII (s : string) : string :=
  match s with
  | EmptyString => EmptyString
  | String c s' => String (toLowerByte c) (lowerASCII s')
  end.

(** [strings.ToLower]: a string of ASCII bytes only is lowered byte by
    byte; any other string goes through [Map(unicode.ToLower, s)], which
    needs the Unicode case tables of the Go runtime and is taken as the
    parameter [mapUnicodeToLower]. *)
Definition ToLower (mapUnicodeToLower : string -> string) (s : string) : string :=
  if isASCII s then lowerASCII s else mapUnicodeToLower s.

Fixpoint HasPrefix (s prefix : string) : bool :=
  match prefix, s with
  | EmptyString, _ => true
  | String p prefix', String c s' => if Ascii.eqb c p then HasPrefix s' prefix' else false
  | String _ _, EmptyString => false
  end.

(** [strings.Contains(s, substr)]: [substr] occurs in [s] at some byte
    offset. *)
Fixpoint Contains (s substr : string) : bool :=
  HasPrefix s substr ||
  match s with
  | EmptyString => false
  | String _ s' => Contains s' substr
  end.

(** [strings.Split(s, sep)] for a separator of one byte, the only kind
    the compiler uses ("," and "-"): the pieces between the occurrences
    of [sep], one more piece than there are occurrences, so never an
    empty slice. [cur] holds the bytes of the piece being read. *)
Fixpoint splitFrom (s : string) (sep : ascii) (cur : string) : list string :=
  match s with
  | EmptyString => [cur]
  | String c s' =>
      if Ascii.eqb c sep then cur :: splitFrom s' sep EmptyString
      else splitFrom s' sep (cur +:+ String c EmptyString)
  end.

Definition Split (s : string) (sep : ascii) : list string :=
  splitFrom s sep EmptyString.

End GoStrings.

(** ** Go's [strconv.ParseUint] at base 10 *)
Module GoStrconv.

Inductive numErr := ErrSyntax | ErrRange | ErrBitSize.

(** [*strconv.NumError]: the failing function, the input and the reason. *)
Record NumError := mkNumError { Func : string; Num : string; Err : numErr }.

Definition fnParseUint : string := "ParseUint".
Definition syntaxError (fn str : string) : NumError := mkNumError fn str ErrSyntax.
Definition rangeError (fn str : string) : NumError := mkNumError fn str ErrRange.
Definition bitSizeError (fn str : string) : NumError := mkNumError fn str ErrBitSize.

Definition maxUint64 : Z := 2 ^ 64 - 1.
Definition uint64 (x : Z) : Z := x mod 2 ^ 64.

(** The digit loop of [ParseUint] with [base = 10]: a byte outside
    '0'..'9' is a syntax error (a letter has digit value 10 or more, which
    is not below the base; an underscore counts only at base 0); [n] is a
    uint64, and an overflow or a value above [maxVal] is a range error,
    found at the digit where it happens. *)
Fixpoint digitLoop (s0 : string) (cutoff maxVal : Z) (s : string) (n : Z)
  : Z * option NumError :=
  match s with
  | EmptyString => (n, None)
  | String c s' =>
      let b := GoStrings.byteOf c in
      if (48 <=? b) && (b <=? 57) then
        let d := b - 48 in
        if n >=? cutoff then (maxVal, Some (rangeError fnParseUint s0))
        else
          let n' := uint64 (n * 10) in
          let n1 := uint64 (n' + d) in
          if (n1 <? n') || (n1 >? maxVal) then (maxVal, Some (rangeError fnParseUint s0))
          else digitLoop s0 cutoff maxVal s' n1
      else (0, Some (syntaxError fnParseUint s0))
  end.

(** [strconv.ParseUint(s, 10, bitSize)]. *)
Definition ParseUint (s : string) (bitSize : Z) : Z * option NumError :=
  if String.eqb s EmptyString then (0, Some (syntaxError fnParseUint s))
  else
    if (bitSize <? 0) || (bitSize >? 64) then (0, Some (bitSizeError fnParseUint s))
    else
      let bitSize := if bitSize =? 0 then 64 else bitSize in
      let cutoff := maxUint64 / 10 + 1 in
      let maxVal := uint64 (Z.shiftl 1 bitSize - 1) in
      digitLoop s cutoff maxVal s 0.

End GoStrconv.

(** ** The utls types and constants the compiler builds its plan from

    Values as declared by github.com/refraction-networking/utls v1.7.0 (the
    version go.mod requires). Of each extension struct only the fields the
    compiler sets are kept; the others stay at their zero value throughout. *)
Module Utls.

Definition CurveID := Z.
Definition SignatureScheme := Z.
Definition CertCompressionAlgo := Z.

Definition GREASE_PLACEHOLDER : Z := 0x0a0a.

Definition X25519 : CurveID := 29.
Definition CurveP256 : CurveID := 23.

Definition VersionTLS12 : Z := 0x0303.
Definition VersionTLS13 : Z := 0x0304.

Definition PKCS1WithSHA256 : SignatureScheme := 0x0401.
Definition PKCS1WithSHA384 : SignatureScheme := 0x0501.
Definition PKCS1WithSHA512 : SignatureScheme := 0x0601.
Definition PSSWithSHA256 : SignatureScheme := 0x0804.
Definition PSSWithSHA384 : SignatureScheme := 0x0805.
Definition PSSWithSHA512 : SignatureScheme := 0x0806.
Definition ECDSAWithP256AndSHA256 : SignatureScheme := 0x0403.
Definition ECDSAWithP384AndSHA384 : SignatureScheme := 0x0503.
Definition ECDSAWithP521AndSHA512 : SignatureScheme := 0x0603.
Definition PKCS1WithSHA1 : SignatureScheme := 0x0201.
Definition ECDSAWithSHA1 : SignatureScheme := 0x0203.

Definition CertCompressionBrotli : CertCompressionAlgo := 0x0002.
Definition PskModeDHE : Z := 1.

Inductive RenegotiationSupport :=
  RenegotiateNever | RenegotiateOnceAsClient | RenegotiateFreelyAsClient.

(** Function values are kept by name: the padding-length function of the
    padding extension and the session-id function of the plan. *)
Inductive paddingFn := BoringPaddingStyle.
Inductive sessionIDFn := sha256_Sum256.

Record KeyShare := mkKeyShare { Group : CurveID; Data : list Z }.

(** The dynamic type and payload of a [utls.TLSExtension] value. *)
Inductive TLSExtension :=
| SNIExtension
| StatusRequestExtension
| SupportedCurvesExtension (Curves : list CurveID)
| SupportedPointsExtension (SupportedPoints : list Z)
| SignatureAlgorithmsExtension (SupportedSignatureAlgorithms : list SignatureScheme)
| ALPNExtension (AlpnProtocols : list string)
| GenericExtension (Id : Z) (Data : list Z)
| SCTExtension
| UtlsPaddingExtension (GetPaddingLen : paddingFn)
| ExtendedMasterSecretExtension
| FakeTokenBindingExtension
| UtlsCompressCertExtension (Algorithms : list CertCompressionAlgo)
| FakeRecordSizeLimitExtension (Limit : Z)
| DelegatedCredentialsExtension (SupportedSignatureAlgorithms : list SignatureScheme)
| SessionTicketExtension
| UtlsPreSharedKeyExtension
| SupportedVersionsExtension (Versions : list Z)
| CookieExtension
| PSKKeyExchangeModesExtension (Modes : list Z)
| SignatureAlgorithmsCertExtension (SupportedSignatureAlgorithms : list SignatureScheme)
| KeyShareExtension (KeyShares : list KeyShare)
| QUICTransportParametersExtension
| NPNExtension
| ApplicationSettingsExtension (SupportedProtocols : list string)
| RenegotiationInfoExtension (Renegotiation : RenegotiationSupport)
| GREASEEncryptedClientHelloExtension
| UtlsGREASEExtension.

(** [utls.ClientHelloSpec]. The compiler leaves [TLSVersMin] and
    [TLSVersMax] unset (their assignments are commented out). *)
Record ClientHelloSpec := mkClientHelloSpec {
  CipherSuites : list Z;
  CompressionMethods : list Z;
  Extensions : list TLSExtension;
  TLSVersMin : Z;
  TLSVersMax : Z;
  GetSessionID : option sessionIDFn
}.

End Utls.

Import Utls.

(** ** tlsextensions.go

    Slices are lists; a nil slice and an empty slice are both the empty
    list (the compiler only appends to its slices and ranges over them).
    Integers of a fixed width are numbers in [Z] with the conversions
    [uint16] and [byte] written out. *)

Definition chrome : string := "chrome".
Definition firefox : string := "firefox".

(** The caller's overrides. A pointer field is [None] when nil and
    otherwise holds the payload of the extension struct it points to (each
    of the eight structs has one field). *)
Record TLSExtensions := mkTLSExtensions {
  SupportedSignatureAlgorithms : option (list SignatureScheme);
  CertCompressionAlgo : option (list CertCompressionAlgo);
  RecordSizeLimit : option Z;
  DelegatedCredentials : option (list SignatureScheme);
  SupportedVersions : option (list Z);
  PSKKeyExchangeModes : option (list Z);
  SignatureAlgorithmsCert : option (list SignatureScheme);
  KeyShareCurves : option (list KeyShare);
  NotUsedGREASE : bool;
  ClientHelloHexStream : string
}.

(** [&TLSExtensions{}]: every field at its zero value. *)
Definition zeroTLSExtensions : TLSExtensions :=
  mkTLSExtensions None None None None None None None None false EmptyString.

Record errExtensionNotExist := mkErrExtensionNotExist { Context : string }.

(** The values the [error] result of [StringToSpec] can hold. *)
Inductive error :=
| NumErrorOf (e : GoStrconv.NumError)
| ExtensionNotExistOf (e : errExtensionNotExist).

(** The method [Error] of [errExtensionNotExist]. *)
Definition errExtensionNotExist_Error (w : errExtensionNotExist) : string :=
  "Extension {{ " +:+ Context w +:+ " }} is not Supported by requests please raise an issue".

Definition raiseExtensionError (info : string) : errExtensionNotExist :=
  mkErrExtensionNotExist info.

(** Run-time panics of the Go runtime. *)
Inductive panic :=
| IndexOutOfRange (index len : Z)
| NilPointerDereference.

(** How a call of [StringToSpec] ends: it returns its pair of results, or
    it panics. *)
Inductive outcome :=
| Return (spec : option ClientHelloSpec) (err : option error)
| Panic (p : panic).

(** A step inside the function body: it yields a value and the body goes
    on ([inl]), or the function has left with an outcome ([inr]). *)
Definition exec (A : Type) : Type := (A + outcome)%type.

Definition bind {A B : Type} (m : exec A) (k : A -> exec B) : exec B :=
  match m with
  | inl a => k a
  | inr o => inr o
  end.

Notation "'do' x <- m ; k" := (bind m (fun x => k))
  (at level 10, x name, m at level 100, k at level 200).

(** [a && b] of Go: [b] is evaluated only when [a] is true. *)
Definition andThen (a b : exec bool) : exec bool :=
  do x <- a; if x then b else inl false.

Notation "a 'and_then' b" := (andThen a b) (at level 45, left associativity).

(** [l[i]] on a slice. *)
Definition index {A : Type} (l : list A) (i : Z) : exec A :=
  match (if i <? 0 then None else l !! Z.to_nat i) with
  | Some x => inl x
  | None => inr (Panic (IndexOutOfRange i (Z.of_nat (length l))))
  end.

(** [p.f], a field read through the pointer [p]. *)
Definition field {A B : Type} (f : A -> B) (p : option A) : exec B :=
  match p with
  | Some a => inl (f a)
  | None => inr (Panic NilPointerDereference)
  end.

Definition uint16 (x : Z) : Z := x mod 2 ^ 16.
Definition byte (x : Z) : Z := x mod 2 ^ 8.

Definition len {A : Type} (l : list A) : Z := Z.of_nat (length l).

(** [genMap]: the catalog, a fresh map with a fresh extension value per key
    at every call, so that no two keys share a value. An update of the
    value a key points to is therefore an update of the map at that key. *)
Definition genMap : gmap string TLSExtension :=
  list_to_map [
    ("0", SNIExtension);
    ("5", StatusRequestExtension);
    ("13", SignatureAlgorithmsExtension [
       ECDSAWithP256AndSHA256; ECDSAWithP384AndSHA384; ECDSAWithP521AndSHA512;
       PSSWithSHA256; PSSWithSHA384; PSSWithSHA512;
       PKCS1WithSHA256; PKCS1WithSHA384; PKCS1WithSHA512;
       ECDSAWithSHA1; PKCS1WithSHA1]);
    ("16", ALPNExtension ["h2"; "http/1.1"]);
    ("17", GenericExtension 17 []);
    ("18", SCTExtension);
    ("21", UtlsPaddingExtension BoringPaddingStyle);
    ("22", GenericExtension 22 []);
    ("23", ExtendedMasterSecretExtension);
    ("24", FakeTokenBindingExtension);
    ("27", UtlsCompressCertExtension [CertCompressionBrotli]);
    ("28", FakeRecordSizeLimitExtension 0x4001);
    ("34", DelegatedCredentialsExtension [
       ECDSAWithP256AndSHA256; ECDSAWithP384AndSHA384; ECDSAWithP521AndSHA512;
       ECDSAWithSHA1]);
    ("35", SessionTicketExtension);
    ("41", UtlsPreSharedKeyExtension);
    ("43", SupportedVersionsExtension [VersionTLS13; VersionTLS12]);
    ("44", CookieExtension);
    ("45", PSKKeyExchangeModesExtension [PskModeDHE]);
    ("49", GenericExtension 49 []);
    ("50", SignatureAlgorithmsCertExtension [
       ECDSAWithP256AndSHA256; ECDSAWithP384AndSHA384; ECDSAWithP521AndSHA512;
       PSSWithSHA256; PSSWithSHA384; PSSWithSHA512;
       PKCS1WithSHA256; PKCS1WithSHA384; PKCS1WithSHA512;
       ECDSAWithSHA1; PKCS1WithSHA1]);
    ("51", KeyShareExtension [mkKeyShare X25519 []]);
    ("57", QUICTransportParametersExtension);
    ("13172", NPNExtension);
    ("17513", ApplicationSettingsExtension ["h2"]);
    ("17613", ApplicationSettingsExtension ["h2"]);
    ("30032", GenericExtension 0x7550 [0]);
    ("65281", RenegotiationInfoExtension RenegotiateOnceAsClient);
    ("65037", GREASEEncryptedClientHelloExtension)
  ].

(** The three parsing loops of [StringToSpec] (curves, point formats,
    ciphers) have one shape: every token goes through
    [strconv.ParseUint(tok, 10, bitSize)]; the first error leaves the
    function with [return nil, err]; a value is converted with [conv] and
    appended to the target slice. *)
Fixpoint parseLoop (bitSize : Z) (conv : Z -> Z) (toks : list string) (target : list Z)
  : exec (list Z) :=
  match toks with
  | [] => inl target
  | c :: toks' =>
      let '(cid, err) := GoStrconv.ParseUint c bitSize in
      match err with
      | Some e => inr (Return None (Some (NumErrorOf e)))
      | None => parseLoop bitSize conv toks' (target ++ [conv cid])
      end
  end.

(** The local variables that hold the fields of the fingerprint. *)
Record ja3Fields := mkJa3Fields {
  version : string;
  ciphers : list string;
  extensions : list string;
  curves : list string;
  pointFormats : list string
}.

(** The guard on [curves] and on [pointFormats]: a slice of length 1 whose
    only element is the empty string is replaced by the empty slice. *)
Definition dropBlank (l : list string) : list string :=
  match l with
  | [c] => if String.eqb c EmptyString then [] else l
  | _ => l
  end.

(** Lines 65-77: the fingerprint is split on "," and its fields 1 to 4 on
    "-"; every [tokens[i]] is a checked slice access. *)
Definition splitJA3 (ja3 : string) : exec ja3Fields :=
  let tokens := GoStrings.Split ja3 "," in
  do version <- index tokens 0;
  do ciphers <- (do t <- index tokens 1; inl (GoStrings.Split t "-"));
  do extensions <- (do t <- index tokens 2; inl (GoStrings.Split t "-"));
  do curves <- (do t <- index tokens 3; inl (GoStrings.Split t "-"));
  let curves := dropBlank curves in
  do pointFormats <- (do t <- index tokens 4; inl (GoStrings.Split t "-"));
  let pointFormats := dropBlank pointFormats in
  inl (mkJa3Fields version ciphers extensions curves pointFormats).

(** [parsedUserAgent == chrome && !tlsExtensions.NotUsedGREASE] *)
Definition chromeWithGREASE (parsedUserAgent : string)
    (tlsExtensions : option TLSExtensions) : exec bool :=
  inl (String.eqb parsedUserAgent chrome)
    and_then (do n <- field NotUsedGREASE tlsExtensions; inl (negb n)).

(** Lines 78-106, "parse curves": the GREASE branch or the P-256 branch on
    the catalog, then the loop over the curve tokens and the store of
    extension "10". *)
Definition parseCurves (parsedUserAgent : string) (tlsExtensions : option TLSExtensions)
    (extMap : gmap string TLSExtension) (curves : list string)
  : exec (gmap string TLSExtension) :=
  let targetCurves : list CurveID := [] in
  do g <- chromeWithGREASE parsedUserAgent tlsExtensions;
  let '(targetCurves, extMap) :=
    if g then
      let targetCurves := targetCurves ++ [GREASE_PLACEHOLDER] in
      let extMap :=
        match extMap !! "43" with
        | Some (SupportedVersionsExtension Versions) =>
            <["43" := SupportedVersionsExtension ([GREASE_PLACEHOLDER] ++ Versions)]> extMap
        | _ => extMap
        end in
      let extMap :=
        match extMap !! "51" with
        | Some (KeyShareExtension KeyShares) =>
            <["51" := KeyShareExtension
                        ([mkKeyShare GREASE_PLACEHOLDER [0]] ++ KeyShares)]> extMap
        | _ => extMap
        end in
      (targetCurves, extMap)
    else
      let extMap :=
        match extMap !! "51" with
        | Some (KeyShareExtension KeyShares) =>
            <["51" := KeyShareExtension (KeyShares ++ [mkKeyShare CurveP256 []])]> extMap
        | _ => extMap
        end in
      (targetCurves, extMap) in
  do targetCurves <- parseLoop 16 uint16 curves targetCurves;
  inl (<["10" := SupportedCurvesExtension targetCurves]> extMap).

(** Lines 108-117, "parse point formats". *)
Definition parsePointFormats (extMap : gmap string TLSExtension)
    (pointFormats : list string) : exec (gmap string TLSExtension) :=
  do targetPointFormats <- parseLoop 8 byte pointFormats [];
  inl (<["11" := SupportedPointsExtension targetPointFormats]> extMap).

(** [extMap[key] = p] when the override pointer [p] is not nil. *)
Definition setOverride {A : Type} (key : string) (mk : A -> TLSExtension)
    (p : option A) (extMap : gmap string TLSExtension) : gmap string TLSExtension :=
  match p with
  | Some x => <[key := mk x]> extMap
  | None => extMap
  end.

(** Lines 119-145, "custom tls extensions"; [ext] is the same pointer as
    [tlsExtensions]. *)
Definition customExtensions (tlsExtensions ext : option TLSExtensions)
    (extMap : gmap string TLSExtension) : exec (gmap string TLSExtension) :=
  match tlsExtensions with
  | None => inl extMap
  | Some _ =>
      do o <- field SupportedSignatureAlgorithms ext;
      let extMap := setOverride "13" SignatureAlgorithmsExtension o extMap in
      do o <- field CertCompressionAlgo ext;
      let extMap := setOverride "27" UtlsCompressCertExtension o extMap in
      do o <- field RecordSizeLimit ext;
      let extMap := setOverride "28" FakeRecordSizeLimitExtension o extMap in
      do o <- field DelegatedCredentials ext;
      let extMap := setOverride "34" DelegatedCredentialsExtension o extMap in
      do o <- field SupportedVersions ext;
      let extMap := setOverride "43" SupportedVersionsExtension o extMap in
      do o <- field PSKKeyExchangeModes ext;
      let extMap := setOverride "45" PSKKeyExchangeModesExtension o extMap in
      do o <- field SignatureAlgorithmsCert ext;
      let extMap := setOverride "50" SignatureAlgorithmsCertExtension o extMap in
      do o <- field KeyShareCurves ext;
      let extMap := setOverride "51" KeyShareExtension o extMap in
      inl extMap
  end.

(** The loop of lines 160-170 over the extension ids; [i] is the index of
    the head of [es] in [extensions] and [exts] the sequence built so far. *)
Fixpoint extensionsLoop (parsedUserAgent : string) (tlsExtensions : option TLSExtensions)
    (extMap : gmap string TLSExtension) (extensions : list string)
    (i : Z) (es : list string) (exts : list TLSExtension) : exec (list TLSExtension) :=
  match es with
  | [] => inl exts
  | e :: es' =>
      match extMap !! e with
      | None => inr (Return None (Some (ExtensionNotExistOf (raiseExtensionError e))))
      | Some te =>
          do c <- inl (i =? len extensions - 1)
                    and_then inl (String.eqb e "41" || String.eqb e "21")
                    and_then inl (String.eqb parsedUserAgent chrome)
                    and_then (do n <- field NotUsedGREASE tlsExtensions; inl (negb n));
          let exts := if c then exts ++ [UtlsGREASEExtension] else exts in
          extensionsLoop parsedUserAgent tlsExtensions extMap extensions
            (i + 1) es' (exts ++ [te])
      end
  end.

(** Lines 154-174, "build extensions list". *)
Definition buildExtensions (parsedUserAgent : string) (tlsExtensions : option TLSExtensions)
    (extMap : gmap string TLSExtension) (extensions : list string)
  : exec (list TLSExtension) :=
  let exts : list TLSExtension := [] in
  do g <- chromeWithGREASE parsedUserAgent tlsExtensions;
  let exts := if g then exts ++ [UtlsGREASEExtension] else exts in
  do exts <- extensionsLoop parsedUserAgent tlsExtensions extMap extensions
               0 extensions exts;
  do g <- inl (String.eqb parsedUserAgent chrome)
            and_then (do l1 <- index extensions (len extensions - 1);
                      inl (negb (String.eqb l1 "21")))
            and_then (do l2 <- index extensions (len extensions - 1);
                      inl (negb (String.eqb l2 "41")))
            and_then (do n <- field NotUsedGREASE tlsExtensions; inl (negb n));
  inl (if g then exts ++ [UtlsGREASEExtension] else exts).

(** Lines 176-188, "build CipherSuites". *)
Definition buildCipherSuites (parsedUserAgent : string)
    (tlsExtensions : option TLSExtensions) (ciphers : list string) : exec (list Z) :=
  let suites : list Z := [] in
  do g <- chromeWithGREASE parsedUserAgent tlsExtensions;
  let suites := if g then suites ++ [GREASE_PLACEHOLDER] else suites in
  parseLoop 16 uint16 ciphers suites.

Section Compiler.

(** [strings.Map(unicode.ToLower, s)], which [strings.ToLower] falls back
    on for a string with a byte outside ASCII. *)
Variable mapUnicodeToLower : string -> string.

Definition ToLower : string -> string := GoStrings.ToLower mapUnicodeToLower.

Definition parseUserAgent (userAgent : string) : string :=
  if GoStrings.Contains (ToLower userAgent) "chrome" then chrome
  else if GoStrings.Contains (ToLower userAgent) "applewebkit" then chrome
  else if GoStrings.Contains (ToLower userAgent) "firefox" then firefox
  else chrome.

(** The body of [StringToSpec], block by block in the order of the
    source: [inl] is the plan of the final
    [return &utls.ClientHelloSpec{...}, nil]. *)
Definition StringToSpec_body (tlsExtensions : option TLSExtensions)
    (ja3 userAgent : string) : exec ClientHelloSpec :=
  let parsedUserAgent := parseUserAgent userAgent in
  let tlsExtensions :=
    match tlsExtensions with
    | None => Some zeroTLSExtensions
    | Some _ => tlsExtensions
    end in
  let ext := tlsExtensions in
  let extMap := genMap in
  do f <- splitJA3 ja3;
  do extMap <- parseCurves parsedUserAgent tlsExtensions extMap (curves f);
  do extMap <- parsePointFormats extMap (pointFormats f);
  do extMap <- customExtensions tlsExtensions ext extMap;
  (* set extension 43 *)
  let '(vid64, err) := GoStrconv.ParseUint (version f) 16 in
  match err with
  | Some e => inr (Return None (Some (NumErrorOf e)))
  | None =>
      let vid := uint16 vid64 in
      do exts <- buildExtensions parsedUserAgent tlsExtensions extMap (extensions f);
      do suites <- buildCipherSuites parsedUserAgent tlsExtensions (ciphers f);
      inl {| CipherSuites := suites;
             CompressionMethods := [0];
             Extensions := exts;
             TLSVersMin := 0;
             TLSVersMax := 0;
             GetSessionID := Some sha256_Sum256 |}
  end.

(** [StringToSpec] creates a [ClientHelloSpec] based on a JA3 string. The
    receiver is a pointer and may be nil ([None]). *)
Definition StringToSpec (tlsExtensions : option TLSExtensions)
    (ja3 userAgent : string) : outcome :=
  match StringToSpec_body tlsExtensions ja3 userAgent with
  | inl spec => Return (Some spec) None
  | inr o => o
  end.

End Compiler.

(** ** What the loops compute

    The functions below are not part of the program: they describe the
    results of its loops, and the lemmas that follow relate the two. *)

(** The values of all tokens, or the error of the first token that
    [ParseUint] rejects. *)
Fixpoint parseAll (bitSize : Z) (conv : Z -> Z) (toks : list string)
  : list Z + GoStrconv.NumError :=
  match toks with
  | [] => inl []
  | c :: toks' =>
      match GoStrconv.ParseUint c bitSize with
      | (_, Some e) => inr e
      | (cid, None) =>
          match parseAll bitSize conv toks' with
          | inl vs => inl (conv cid :: vs)
          | inr e => inr e
          end
      end
  end.

(** The catalog entries of all ids, or the first id the catalog lacks. *)
Fixpoint lookupAll (extMap : gmap string TLSExtension) (es : list string)
  : list TLSExtension + string :=
  match es with
  | [] => inl []
  | e :: es' =>
      match extMap !! e with
      | None => inr e
      | Some te =>
          match lookupAll extMap es' with
          | inl tes => inl (te :: tes)
          | inr x => inr x
          end
      end
  end.

Definition isPskOrPadding (e : string) : bool := String.eqb e "41" || String.eqb e "21".

(** The entries [tes] of the ids [es], with a marker put in front of the
    last entry when [g] holds and the last id is "41" or "21". *)
Fixpoint withFinalMarker (g : bool) (es : list string) (tes : list TLSExtension)
  : list TLSExtension :=
  match es, tes with
  | e :: es', te :: tes' =>
      match es' with
      | [] => (if g && isPskOrPadding e then [UtlsGREASEExtension] else []) ++ [te]
      | _ :: _ => te :: withFinalMarker g es' tes'
      end
  | _, _ => []
  end.

Definition lastID (es : list string) : string := List.last es EmptyString.

(** The receiver after the nil check of lines 60-62. *)
Definition receiverOrZero (tlsExtensions : option TLSExtensions) : TLSExtensions :=
  match tlsExtensions with
  | None => zeroTLSExtensions
  | Some t => t
  end.

(** The condition "chrome-like and randomization not suppressed". *)
Definition greaseOn (parsedUserAgent : string) (t : TLSExtensions) : bool :=
  String.eqb parsedUserAgent chrome && negb (NotUsedGREASE t).

(** The extension sequence: the leading marker, the entries with the marker
    before a final "41" or "21", and the trailing marker after any other
    final id. *)
Definition placeMarkers (g : bool) (es : list string) (tes : list TLSExtension)
  : list TLSExtension :=
  (if g then [UtlsGREASEExtension] else []) ++
  withFinalMarker g es tes ++
  (if g && negb (isPskOrPadding (lastID es)) then [UtlsGREASEExtension] else []).

Definition greasePrefix (g : bool) : list Z :=
  if g then [GREASE_PLACEHOLDER] else [].

(** The version list of entry "43" replaced by [f] of it, when the catalog
    has such an entry and it is a supported-versions extension. *)
Definition updateVersions (f : list Z -> list Z) (extMap : gmap string TLSExtension)
  : gmap string TLSExtension :=
  match extMap !! "43" with
  | Some (SupportedVersionsExtension Versions) =>
      <["43" := SupportedVersionsExtension (f Versions)]> extMap
  | _ => extMap
  end.

(** The same for the key shares of entry "51". *)
Definition updateKeyShares (f : list KeyShare -> list KeyShare)
    (extMap : gmap string TLSExtension) : gmap string TLSExtension :=
  match extMap !! "51" with
  | Some (KeyShareExtension KeyShares) => <["51" := KeyShareExtension (f KeyShares)]> extMap
  | _ => extMap
  end.

(** The catalog after the branch of "parse curves" on [g]. *)
Definition curveCatalog (g : bool) (extMap : gmap string TLSExtension)
  : gmap string TLSExtension :=
  if g then
    updateKeyShares (fun KeyShares => mkKeyShare GREASE_PLACEHOLDER [0] :: KeyShares)
      (updateVersions (fun Versions => GREASE_PLACEHOLDER :: Versions) extMap)
  else
    updateKeyShares (fun KeyShares => KeyShares ++ [mkKeyShare CurveP256 []]) extMap.

(** The eight overrides, in the order of the source. *)
Definition applyOverrides (t : TLSExtensions) (extMap : gmap string TLSExtension)
  : gmap string TLSExtension :=
  setOverride "51" KeyShareExtension (KeyShareCurves t)
  (setOverride "50" SignatureAlgorithmsCertExtension (SignatureAlgorithmsCert t)
  (setOverride "45" PSKKeyExchangeModesExtension (PSKKeyExchangeModes t)
  (setOverride "43" SupportedVersionsExtension (SupportedVersions t)
  (setOverride "34" DelegatedCredentialsExtension (DelegatedCredentials t)
  (setOverride "28" FakeRecordSizeLimitExtension (RecordSizeLimit t)
  (setOverride "27" UtlsCompressCertExtension (CertCompressionAlgo t)
  (setOverride "13" SignatureAlgorithmsExtension (SupportedSignatureAlgorithms t)
     extMap))))))).

(** The catalog the extension ids are looked up in. *)
Definition mergedCatalog (g : bool) (t : TLSExtensions) (curveIDs pointIDs : list Z)
  : gmap string TLSExtension :=
  applyOverrides t
    (<["11" := SupportedPointsExtension pointIDs]>
       (<["10" := SupportedCurvesExtension (greasePrefix g ++ curveIDs)]>
          (curveCatalog g genMap))).

(** The outcome of [StringToSpec] on the fields [f] of a fingerprint, for
    the overrides [t] and the condition [g]: the checks in the order the
    source makes them. *)
Definition compile (g : bool) (t : TLSExtensions) (f : ja3Fields) : outcome :=
  match parseAll 16 uint16 (curves f) with
  | inr e => Return None (Some (NumErrorOf e))
  | inl curveIDs =>
  match parseAll 8 byte (pointFormats f) with
  | inr e => Return None (Some (NumErrorOf e))
  | inl pointIDs =>
  match GoStrconv.ParseUint (version f) 16 with
  | (_, Some e) => Return None (Some (NumErrorOf e))
  | (_, None) =>
  match lookupAll (mergedCatalog g t curveIDs pointIDs) (extensions f) with
  | inr x => Return None (Some (ExtensionNotExistOf (raiseExtensionError x)))
  | inl tes =>
  match parseAll 16 uint16 (ciphers f) with
  | inr e => Return None (Some (NumErrorOf e))
  | inl cipherIDs =>
      Return (Some {| CipherSuites := greasePrefix g ++ cipherIDs;
                      CompressionMethods := [0];
                      Extensions := placeMarkers g (extensions f) tes;
                      TLSVersMin := 0;
                      TLSVersMax := 0;
                      GetSessionID := Some sha256_Sum256 |}) None
  end end end end end.

Definition isDigit (c : ascii) : bool :=
  (48 <=? GoStrings.byteOf c) && (GoStrings.byteOf c <=? 57).

Fixpoint decimalFrom (n : Z) (s : string) : option Z :=
  match s with
  | EmptyString => Some n
  | String c s' =>
      if isDigit c then decimalFrom (n * 10 + (GoStrings.byteOf c - 48)) s' else None
  end.

(** The number that a non-empty string of decimal digits denotes. *)
Definition decimalValue (s : string) : option Z :=
  match s with
  | EmptyString => None
  | String _ _ => decimalFrom 0 s
  end.

(** [ParseUint] accepts the token at this bit size. *)
Definition tokenOK (bitSize : Z) (tok : string) : Prop :=
  snd (GoStrconv.ParseUint tok bitSize) = None.

(** A randomization-marker extension. *)
Definition isMarker (te : TLSExtension) : bool :=
  match te with
  | UtlsGREASEExtension => true
  | _ => false
  end.

(** No entry of the catalog is a marker. *)
Definition noMarkers (extMap : gmap string TLSExtension) : Prop :=
  map_Forall (fun _ te => isMarker te = false) extMap.

(** The ids that have an entry when the extension ids are looked up: those
    of [genMap], and "10" and "11". *)
Definition catalogIDs : gset string := {["10"]} ∪ {["11"]} ∪ dom genMap.

(** A stand-in for the Unicode fallback of [strings.ToLower], for closed
    examples; every example uses ASCII identity strings, on which the
    fallback is not consulted. *)
Definition idLower : string -> string := fun s => s.

(** The overrides [t] with the flag [NotUsedGREASE] set to [b]. *)
Definition setNotUsedGREASE (b : bool) (t : TLSExtensions) : TLSExtensions :=
  {| SupportedSignatureAlgorithms := SupportedSignatureAlgorithms t;
     CertCompressionAlgo := CertCompressionAlgo t;
     RecordSizeLimit := RecordSizeLimit t;
     DelegatedCredentials := DelegatedCredentials t;
     SupportedVersions := SupportedVersions t;
     PSKKeyExchangeModes := PSKKeyExchangeModes t;
     SignatureAlgorithmsCert := SignatureAlgorithmsCert t;
     KeyShareCurves := KeyShareCurves t;
     NotUsedGREASE := b;
     ClientHelloHexStream := ClientHelloHexStream t |}.

(** The tokens [StringToSpec] passes to [ParseUint], each with the bit
    size of the call, in the order of the calls: curves, point formats,
    version, ciphers. The extension ids are not among them: they are used
    as keys of the catalog only. *)
Definition numericTokens (f : ja3Fields) : list (string * Z) :=
  ((fun c => (c, 16)) <$> curves f) ++
  ((fun p => (p, 8)) <$> pointFormats f) ++
  [(version f, 16)] ++
  ((fun c => (c, 16)) <$> ciphers f).

(** The entry an override of the caller puts at the id [k]: the eight ids
    of the block "custom tls extensions", each with the field it is taken
    from; [None] for a nil field and for every other id. *)
Definition overrideEntry (t : TLSExtensions) (k : string) : option TLSExtension :=
  if String.eqb k "13" then SignatureAlgorithmsExtension <$> SupportedSignatureAlgorithms t
  else if String.eqb k "27" then UtlsCompressCertExtension <$> CertCompressionAlgo t
  else if String.eqb k "28" then FakeRecordSizeLimitExtension <$> RecordSizeLimit t
  else if String.eqb k "34" then DelegatedCredentialsExtension <$> DelegatedCredentials t
  else if String.eqb k "43" then SupportedVersionsExtension <$> SupportedVersions t
  else if String.eqb k "45" then PSKKeyExchangeModesExtension <$> PSKKeyExchangeModes t
  else if String.eqb k "50" then SignatureAlgorithmsCertExtension <$> SignatureAlgorithmsCert t
  else if String.eqb k "51" then KeyShareExtension <$> KeyShareCurves t
  else None.

(** The byte [c] occurs in [s]. *)
Fixpoint hasByte (c : ascii) (s : string) : bool :=
  match s with
  | EmptyString => false
  | String x s' => Ascii.eqb x c || hasByte c s'
  end.

(** [strings.Join(l, sep)] for a separator of one byte. The compiler does
    not call it; it states what [strings.Split] undoes. *)
Fixpoint joinWith (sep : ascii) (l : list string) : string :=
  match l with
  | [] => EmptyString
  | x :: l' =>
      match l' with
      | [] => x
      | _ :: _ => x +:+ String sep (joinWith sep l')
      end
  end.

(** Some substring of [ua] is [w] up to the case of its ASCII letters. *)
Definition caseVariantOccurs (w ua : string) : Prop :=
  exists pre x post, ua = pre +:+ x +:+ post /\ GoStrings.lowerASCII x = w.

(** The ids with a catalog entry, written out: the keys of [genMap], and
    "10" and "11". *)
Definition supportedIDs : list string :=
  ["0"; "5"; "10"; "11"; "13"; "16"; "17"; "18"; "21"; "22"; "23"; "24"; "27"; "28";
   "34"; "35"; "41"; "43"; "44"; "45"; "49"; "50"; "51"; "57"; "13172"; "17513";
   "17613"; "30032"; "65281"; "65037"].

(** The 16-bit codepoints an extension carries in its payload. *)
Definition codepoints (x : TLSExtension) : list Z :=
  match x with
  | SupportedCurvesExtension Curves => Curves
  | SignatureAlgorithmsExtension l => l
  | DelegatedCredentialsExtension l => l
  | SignatureAlgorithmsCertExtension l => l
  | GenericExtension Id _ => [Id]
  | UtlsCompressCertExtension Algorithms => Algorithms
  | SupportedVersionsExtension Versions => Versions
  | KeyShareExtension KeyShares => Group <$> KeyShares
  | _ => []
  end.

(** The extension is a marker extension, or the GREASE placeholder is one
    of its codepoints. *)
Definition hasGREASE (x : TLSExtension) : bool :=
  isMarker x || existsb (Z.eqb GREASE_PLACEHOLDER) (codepoints x).

(** The entry of the id [e] in a compilation without markers: the
    caller's override when there is one; else, for "10" and "11", the
    curve and point-format values of the fingerprint and nothing more; for
    "51", the X25519 key share of [genMap] followed by the P-256 share;
    for any other id, "43" included, the entry of [genMap] as it is. *)
Definition markerFreeEntry (t : TLSExtensions) (curveIDs pointIDs : list Z)
    (e : string) (x : TLSExtension) : Prop :=
  match overrideEntry t e with
  | Some x' => x = x'
  | None =>
      if String.eqb e "10" then x = SupportedCurvesExtension curveIDs
      else if String.eqb e "11" then x = SupportedPointsExtension pointIDs
      else if String.eqb e "51" then
        x = KeyShareExtension [mkKeyShare X25519 []; mkKeyShare CurveP256 []]
      else genMap !! e = Some x
  end.

(** ** Lemmas on the loops *)

Lemma splitFrom_cons s sep cur : exists x l, GoStrings.splitFrom s sep cur = x :: l.
Proof.
  revert cur. induction s as [|c s IH]; intros cur; simpl.
  - eauto.
  - destruct (Ascii.eqb c sep); eauto.
Qed.

Lemma Split_cons s sep : exists x l, GoStrings.Split s sep = x :: l.
Proof. apply splitFrom_cons. Qed.

Lemma parseLoop_parseAll bitSize conv toks target :
  parseLoop bitSize conv toks target =
  match parseAll bitSize conv toks with
  | inl vs => inl (target ++ vs)
  | inr e => inr (Return None (Some (NumErrorOf e)))
  end.
Proof.
  revert target. induction toks as [|c toks IH]; intros target; simpl.
  - by rewrite app_nil_r.
  - destruct (GoStrconv.ParseUint c bitSize) as [cid [e|]]; [done|].
    rewrite IH. destruct (parseAll bitSize conv toks); [|done].
    by rewrite <- app_assoc.
Qed.

Lemma len_app {A} (l k : list A) : len (l ++ k) = len l + len k.
Proof. unfold len. rewrite length_app. lia. Qed.

Lemma extensionsLoop_lookupAll pua t extMap extensions es :
  forall pre exts,
    extensions = pre ++ es ->
    extensionsLoop pua (Some t) extMap extensions (len pre) es exts =
    match lookupAll extMap es with
    | inl tes => inl (exts ++ withFinalMarker (greaseOn pua t) es tes)
    | inr x => inr (Return None (Some (ExtensionNotExistOf (raiseExtensionError x))))
    end.
Proof.
  induction es as [|e es IH]; intros pre exts Hext; simpl.
  - by rewrite app_nil_r.
  - destruct (extMap !! e) as [te|]; [|done].
    specialize (IH (pre ++ [e]) ). 
    assert (Hlen : len (pre ++ [e]) = len pre + 1) by (rewrite len_app; reflexivity).
    rewrite Hlen in IH.
    assert (Hn : len extensions = len pre + 1 + len es).
    { subst extensions. rewrite len_app. unfold len. simpl. lia. }
    destruct es as [|e' es'].
    + simpl. replace (len pre =? len extensions - 1) with true.
      2:{ symmetry. apply Z.eqb_eq. rewrite Hn. unfold len. simpl. lia. }
      unfold greaseOn, isPskOrPadding. simpl.
      destruct (String.eqb e "41" || String.eqb e "21"); simpl;
        destruct (String.eqb pua chrome); simpl;
        destruct (NotUsedGREASE t); simpl; by rewrite <- ?app_assoc.
    + replace (len pre =? len extensions - 1) with false.
      2:{ symmetry. apply Z.eqb_neq. rewrite Hn. unfold len. simpl. lia. }
      cbn [andThen bind]. rewrite IH.
      2:{ rewrite <- app_assoc. exact Hext. }
      destruct (lookupAll extMap (e' :: es')); [|done].
      by rewrite <- app_assoc.
Qed.

Lemma last_lastID (es : list string) : es <> [] -> last es = Some (lastID es).
Proof.
  unfold lastID. induction es as [|a [|b es] IH]; [done|done|]. intros _.
  change (List.last (a :: b :: es) EmptyString) with (List.last (b :: es) EmptyString).
  change (last (a :: b :: es)) with (last (b :: es)).
  by apply IH.
Qed.

Lemma index_last (es : list string) :
  es <> [] -> index es (len es - 1) = inl (lastID es).
Proof.
  intros Hne. unfold index, len.
  destruct (Z.ltb_spec (Z.of_nat (length es) - 1) 0) as [Hlt|_].
  { destruct es; [done|]. simpl in Hlt. lia. }
  replace (Z.to_nat (Z.of_nat (length es) - 1)) with (pred (length es)) by lia.
  by rewrite <- last_lookup, (last_lastID es Hne).
Qed.

Lemma buildExtensions_lookupAll pua t extMap es :
  es <> [] ->
  buildExtensions pua (Some t) extMap es =
  match lookupAll extMap es with
  | inl tes => inl (placeMarkers (greaseOn pua t) es tes)
  | inr x => inr (Return None (Some (ExtensionNotExistOf (raiseExtensionError x))))
  end.
Proof.
  intros Hne.
  pose proof (fun exts => extensionsLoop_lookupAll pua t extMap es es [] exts eq_refl) as Hloop.
  change (len []) with 0 in Hloop.
  unfold buildExtensions, chromeWithGREASE, placeMarkers, isPskOrPadding, greaseOn in *.
  rewrite (index_last es Hne). cbn [field].
  destruct (String.eqb pua chrome), (NotUsedGREASE t);
    cbn [andThen bind negb andb]; rewrite Hloop;
    destruct (lookupAll extMap es) as [tes|x]; cbn [bind]; try reflexivity;
    destruct (String.eqb (lastID es) "21"), (String.eqb (lastID es) "41");
    cbn [bind andThen negb andb orb app];
    rewrite ?app_nil_r; reflexivity.
Qed.

Lemma chromeWithGREASE_greaseOn pua t :
  chromeWithGREASE pua (Some t) = inl (greaseOn pua t).
Proof.
  unfold chromeWithGREASE, greaseOn. cbn [field andThen bind].
  by destruct (String.eqb pua chrome).
Qed.

Lemma parseCurves_parseAll pua t extMap curves :
  parseCurves pua (Some t) extMap curves =
  match parseAll 16 uint16 curves with
  | inl ids =>
      inl (<["10" := SupportedCurvesExtension (greasePrefix (greaseOn pua t) ++ ids)]>
             (curveCatalog (greaseOn pua t) extMap))
  | inr e => inr (Return None (Some (NumErrorOf e)))
  end.
Proof.
  unfold parseCurves. rewrite chromeWithGREASE_greaseOn. cbn [bind].
  unfold curveCatalog, greasePrefix.
  destruct (greaseOn pua t); rewrite parseLoop_parseAll;
    destruct (parseAll 16 uint16 curves); reflexivity.
Qed.

Lemma parsePointFormats_parseAll extMap pointFormats :
  parsePointFormats extMap pointFormats =
  match parseAll 8 byte pointFormats with
  | inl ids => inl (<["11" := SupportedPointsExtension ids]> extMap)
  | inr e => inr (Return None (Some (NumErrorOf e)))
  end.
Proof.
  unfold parsePointFormats. rewrite parseLoop_parseAll.
  destruct (parseAll 8 byte pointFormats); reflexivity.
Qed.

Lemma customExtensions_applyOverrides t extMap :
  customExtensions (Some t) (Some t) extMap = inl (applyOverrides t extMap).
Proof. reflexivity. Qed.

Lemma buildCipherSuites_parseAll pua t ciphers :
  buildCipherSuites pua (Some t) ciphers =
  match parseAll 16 uint16 ciphers with
  | inl ids => inl (greasePrefix (greaseOn pua t) ++ ids)
  | inr e => inr (Return None (Some (NumErrorOf e)))
  end.
Proof.
  unfold buildCipherSuites. rewrite chromeWithGREASE_greaseOn. cbn [bind].
  rewrite parseLoop_parseAll. unfold greasePrefix.
  destruct (greaseOn pua t); reflexivity.
Qed.

(** *** The field splitter *)

Lemma splitJA3_fields ja3 v cf ef cvf pff rest :
  GoStrings.Split ja3 "," = v :: cf :: ef :: cvf :: pff :: rest ->
  splitJA3 ja3 =
  inl (mkJa3Fields v (GoStrings.Split cf "-") (GoStrings.Split ef "-")
         (dropBlank (GoStrings.Split cvf "-")) (dropBlank (GoStrings.Split pff "-"))).
Proof. intros H. unfold splitJA3. rewrite H. reflexivity. Qed.

Lemma splitJA3_short ja3 :
  len (GoStrings.Split ja3 ",") < 5 ->
  splitJA3 ja3 =
  inr (Panic (IndexOutOfRange (len (GoStrings.Split ja3 ",")) (len (GoStrings.Split ja3 ",")))).
Proof.
  intros H. unfold splitJA3.
  destruct (Split_cons ja3 ",") as (v & l & E). rewrite E in *.
  destruct l as [|cf [|ef [|cvf [|pff rest]]]]; try reflexivity.
  unfold len in H. cbn [length] in H. lia.
Qed.

Lemma splitJA3_inv ja3 f :
  splitJA3 ja3 = inl f ->
  exists v cf ef cvf pff rest,
    GoStrings.Split ja3 "," = v :: cf :: ef :: cvf :: pff :: rest /\
    f = mkJa3Fields v (GoStrings.Split cf "-") (GoStrings.Split ef "-")
          (dropBlank (GoStrings.Split cvf "-")) (dropBlank (GoStrings.Split pff "-")).
Proof.
  intros H.
  destruct (Z.ltb_spec (len (GoStrings.Split ja3 ",")) 5) as [Hlt|Hge].
  - rewrite (splitJA3_short ja3 Hlt) in H. discriminate.
  - destruct (GoStrings.Split ja3 ",") as [|v [|cf [|ef [|cvf [|pff rest]]]]] eqn:E;
      try (unfold len in Hge; cbn [length] in Hge; lia).
    rewrite (splitJA3_fields _ _ _ _ _ _ _ E) in H. inversion H. eauto 10.
Qed.

Lemma splitJA3_extensions ja3 f : splitJA3 ja3 = inl f -> extensions f <> [].
Proof.
  intros H. destruct (splitJA3_inv _ _ H) as (v & cf & ef & cvf & pff & rest & _ & ->).
  simpl. destruct (Split_cons ef "-") as (x & l & ->). done.
Qed.

(** *** The whole function *)

Lemma StringToSpec_compile m te ja3 ua f :
  splitJA3 ja3 = inl f ->
  StringToSpec m te ja3 ua =
  compile (greaseOn (parseUserAgent m ua) (receiverOrZero te)) (receiverOrZero te) f.
Proof.
  intros Hf. pose proof (splitJA3_extensions _ _ Hf) as Hne.
  unfold StringToSpec, StringToSpec_body, compile, mergedCatalog.
  replace (match te with None => Some zeroTLSExtensions | Some _ => te end)
    with (Some (receiverOrZero te)) by (by destruct te).
  rewrite Hf. cbn [bind].
  rewrite parseCurves_parseAll.
  destruct (parseAll 16 uint16 (curves f)) as [curveIDs|e]; cbn [bind]; [|done].
  rewrite parsePointFormats_parseAll.
  destruct (parseAll 8 byte (pointFormats f)) as [pointIDs|e]; cbn [bind]; [|done].
  rewrite customExtensions_applyOverrides. cbn [bind].
  destruct (GoStrconv.ParseUint (version f) 16) as [vid64 [e|]]; [done|].
  rewrite (buildExtensions_lookupAll _ _ _ _ Hne).
  destruct (lookupAll _ (extensions f)) as [tes|x]; cbn [bind]; [|done].
  rewrite buildCipherSuites_parseAll.
  destruct (parseAll 16 uint16 (ciphers f)) as [cipherIDs|e]; cbn [bind]; done.
Qed.

Lemma StringToSpec_short m te ja3 ua :
  len (GoStrings.Split ja3 ",") < 5 ->
  StringToSpec m te ja3 ua =
  Panic (IndexOutOfRange (len (GoStrings.Split ja3 ",")) (len (GoStrings.Split ja3 ","))).
Proof.
  intros H. unfold StringToSpec, StringToSpec_body.
  by rewrite (splitJA3_short ja3 H).
Qed.

Lemma compile_returns g t f :
  (exists plan, compile g t f = Return (Some plan) None) \/
  (exists err, compile g t f = Return None (Some err)).
Proof.
  unfold compile.
  destruct (parseAll 16 uint16 (curves f)); [|eauto].
  destruct (parseAll 8 byte (pointFormats f)); [|eauto].
  destruct (GoStrconv.ParseUint (version f) 16) as [? [?|]]; [eauto|].
  destruct (lookupAll _ (extensions f)); [|eauto].
  destruct (parseAll 16 uint16 (ciphers f)); eauto.
Qed.

(** *** [strconv.ParseUint] *)

Lemma digitLoop_error s0 cutoff maxVal s n r e :
  GoStrconv.digitLoop s0 cutoff maxVal s n = (r, Some e) ->
  GoStrconv.Func e = "ParseUint" /\ GoStrconv.Num e = s0.
Proof.
  revert n. induction s as [|c s IH]; intros n; simpl; [done|].
  repeat case_match; try (intros [= <- <-]; split; reflexivity). apply IH.
Qed.

(** An error of [ParseUint] names the function and carries the token. *)
Lemma ParseUint_error s bitSize r e :
  GoStrconv.ParseUint s bitSize = (r, Some e) ->
  GoStrconv.Func e = "ParseUint" /\ GoStrconv.Num e = s.
Proof.
  unfold GoStrconv.ParseUint.
  repeat case_match; try (intros [= <- <-]; split; reflexivity).
  all: apply digitLoop_error.
Qed.

Lemma digitLoop_range s0 cutoff maxVal s n r :
  GoStrconv.digitLoop s0 cutoff maxVal s n = (r, None) ->
  0 <= n <= maxVal -> 0 <= r <= maxVal.
Proof.
  revert n. induction s as [|c s IH]; intros n; simpl.
  - by intros [= <-].
  - repeat case_match; try done. intros Hr Hn. apply (IH _ Hr).
    match goal with H : _ || _ = false |- _ => apply orb_false_elim in H as [_ H2] end.
    split; [apply Z.mod_pos_bound; done | lia].
Qed.

Lemma maxVal_bits bitSize :
  0 < bitSize <= 64 ->
  GoStrconv.uint64 (Z.shiftl 1 bitSize - 1) = 2 ^ bitSize - 1.
Proof.
  intros H. unfold GoStrconv.uint64. rewrite Z.shiftl_1_l.
  apply Z.mod_small.
  assert (0 < 2 ^ bitSize) by (apply Z.pow_pos_nonneg; lia).
  assert (2 ^ bitSize <= 2 ^ 64) by (apply Z.pow_le_mono_r; lia).
  lia.
Qed.

(** A value of [ParseUint] fits the bit size. *)
Lemma ParseUint_range s bitSize n :
  0 < bitSize <= 64 ->
  GoStrconv.ParseUint s bitSize = (n, None) -> 0 <= n < 2 ^ bitSize.
Proof.
  intros Hb. unfold GoStrconv.ParseUint.
  destruct (String.eqb s EmptyString); [done|].
  destruct ((bitSize <? 0) || (bitSize >? 64)); [done|].
  replace (if bitSize =? 0 then 64 else bitSize) with bitSize
    by (destruct (Z.eqb_spec bitSize 0); lia).
  rewrite (maxVal_bits _ Hb). intros H.
  apply digitLoop_range in H; [lia|].
  assert (0 < 2 ^ bitSize) by (apply Z.pow_pos_nonneg; lia). lia.
Qed.

Lemma decimalFrom_ge s n r : 0 <= n -> decimalFrom n s = Some r -> n <= r.
Proof.
  revert n. induction s as [|c s IH]; intros n Hn; simpl.
  - intros [= <-]. lia.
  - unfold isDigit. destruct (Z.leb_spec 48 (GoStrings.byteOf c)) as [H48|]; [|done].
    destruct (Z.leb_spec (GoStrings.byteOf c) 57) as [H57|]; [|done]. simpl.
    intros Hd. apply IH in Hd; lia.
Qed.

Lemma digitLoop_decimal s0 maxVal s n r :
  0 <= n <= maxVal -> maxVal < 2 ^ 32 ->
  GoStrconv.digitLoop s0 (GoStrconv.maxUint64 / 10 + 1) maxVal s n = (r, None) <->
  decimalFrom n s = Some r /\ r <= maxVal.
Proof.
  change (GoStrconv.maxUint64 / 10 + 1) with 1844674407370955162.
  change (2 ^ 32) with 4294967296.
  revert n. induction s as [|c s IH]; intros n Hn Hmax; simpl.
  - split; [intros [= <-]; split; [done|lia] | intros [[= <-] _]; done].
  - unfold isDigit.
    destruct (Z.leb_spec 48 (GoStrings.byteOf c)) as [H48|]; [|simpl; split; [done|by intros [? _]]].
    destruct (Z.leb_spec (GoStrings.byteOf c) 57) as [H57|]; [|simpl; split; [done|by intros [? _]]].
    simpl.
    destruct (Z.geb_spec n 1844674407370955162) as [?|_]; [lia|].
    unfold GoStrconv.uint64. change (2 ^ 64) with 18446744073709551616.
    rewrite (Z.mod_small (n * 10)) by lia.
    rewrite (Z.mod_small (n * 10 + _)) by lia.
    destruct (Z.ltb_spec (n * 10 + (GoStrings.byteOf c - 48)) (n * 10)) as [?|_]; [lia|].
    simpl.
    destruct (Z.gtb_spec (n * 10 + (GoStrings.byteOf c - 48)) maxVal) as [Hgt|Hle].
    + split; [done|]. intros [Hd Hr]. apply decimalFrom_ge in Hd; lia.
    + apply IH; lia.
Qed.

(** [ParseUint] at 8 and at 16 bits (at up to 32 bits) accepts exactly the
    non-empty strings of decimal digits whose number fits the bit size, and
    returns that number. *)
Lemma ParseUint_decimal s bitSize n :
  0 < bitSize <= 32 ->
  GoStrconv.ParseUint s bitSize = (n, None) <->
  decimalValue s = Some n /\ n <= 2 ^ bitSize - 1.
Proof.
  intros Hb. unfold GoStrconv.ParseUint, decimalValue.
  destruct s as [|c s]; [simpl; split; [done|by intros [? _]]|].
  change (String.eqb (String c s) EmptyString) with false. cbv iota.
  destruct (Z.ltb_spec bitSize 0); [lia|].
  destruct (Z.gtb_spec bitSize 64); [lia|]. cbn [orb].
  destruct (Z.eqb_spec bitSize 0); [lia|].
  rewrite maxVal_bits by lia.
  assert (0 < 2 ^ bitSize) by (apply Z.pow_pos_nonneg; lia).
  assert (2 ^ bitSize <= 2 ^ 32) by (apply Z.pow_le_mono_r; lia).
  apply digitLoop_decimal; lia.
Qed.

(** *** The token loops *)

Lemma parseAll_inl bitSize conv toks :
  Forall (tokenOK bitSize) toks -> exists ids, parseAll bitSize conv toks = inl ids.
Proof.
  induction 1 as [|c toks Hc _ [ids IH]]; simpl; [eauto|].
  unfold tokenOK in Hc. destruct (GoStrconv.ParseUint c bitSize) as [cid [e|]]; [done|].
  rewrite IH. eauto.
Qed.

Lemma parseAll_inl_Forall bitSize conv toks ids :
  parseAll bitSize conv toks = inl ids -> Forall (tokenOK bitSize) toks.
Proof.
  revert ids. induction toks as [|c toks IH]; intros ids; simpl; [constructor|].
  destruct (GoStrconv.ParseUint c bitSize) as [cid [e|]] eqn:E; [done|].
  destruct (parseAll bitSize conv toks) as [vs|]; [|done]. intros _.
  constructor; [unfold tokenOK; by rewrite E | by eapply IH].
Qed.

(** A failing loop reports the error of its first rejected token. *)
Lemma parseAll_inr bitSize conv toks e :
  parseAll bitSize conv toks = inr e ->
  exists pre tok post,
    toks = pre ++ tok :: post /\ Forall (tokenOK bitSize) pre /\
    snd (GoStrconv.ParseUint tok bitSize) = Some e.
Proof.
  induction toks as [|c toks IH]; simpl; [done|].
  destruct (GoStrconv.ParseUint c bitSize) as [cid [e'|]] eqn:E.
  - intros [= <-]. exists [], c, toks. rewrite E. by repeat split.
  - destruct (parseAll bitSize conv toks) as [vs|e'']; [done|].
    intros [= <-]. destruct (IH eq_refl) as (pre & tok & post & -> & Hpre & Htok).
    exists (c :: pre), tok, post. repeat split; [|done].
    constructor; [unfold tokenOK; by rewrite E | done].
Qed.

(** *** The catalog *)

Lemma dom_insert_known (extMap : gmap string TLSExtension) k v :
  is_Some (extMap !! k) -> dom (<[k := v]> extMap) = dom extMap.
Proof.
  intros Hk%elem_of_dom. rewrite dom_insert_L.
  apply set_eq. intros x. rewrite elem_of_union, elem_of_singleton.
  split; [intros [->|?]; done | by right].
Qed.

Lemma setOverride_dom {A} key (mk : A -> TLSExtension) p (extMap : gmap string TLSExtension) :
  key ∈ dom extMap -> dom (setOverride key mk p extMap) = dom extMap.
Proof.
  intros H. destruct p; simpl; [|done]. apply dom_insert_known. by apply elem_of_dom.
Qed.

Lemma updateVersions_lookup f (extMap : gmap string TLSExtension) k :
  updateVersions f extMap !! k =
  if decide (k = "43") then
    match extMap !! "43" with
    | Some (SupportedVersionsExtension Versions) => Some (SupportedVersionsExtension (f Versions))
    | other => other
    end
  else extMap !! k.
Proof.
  unfold updateVersions. destruct (decide (k = "43")) as [->|Hne].
  - destruct (extMap !! "43") as [[]|] eqn:E; rewrite ?lookup_insert_eq; done.
  - destruct (extMap !! "43") as [[]|]; rewrite ?lookup_insert_ne; done.
Qed.

Lemma updateKeyShares_lookup f (extMap : gmap string TLSExtension) k :
  updateKeyShares f extMap !! k =
  if decide (k = "51") then
    match extMap !! "51" with
    | Some (KeyShareExtension KeyShares) => Some (KeyShareExtension (f KeyShares))
    | other => other
    end
  else extMap !! k.
Proof.
  unfold updateKeyShares. destruct (decide (k = "51")) as [->|Hne].
  - destruct (extMap !! "51") as [[]|] eqn:E; rewrite ?lookup_insert_eq; done.
  - destruct (extMap !! "51") as [[]|]; rewrite ?lookup_insert_ne; done.
Qed.

Lemma updateVersions_dom f (extMap : gmap string TLSExtension) :
  dom (updateVersions f extMap) = dom extMap.
Proof.
  unfold updateVersions. destruct (extMap !! "43") as [te|] eqn:E; [|done].
  destruct te; try done. apply dom_insert_known. by rewrite E.
Qed.

Lemma updateKeyShares_dom f (extMap : gmap string TLSExtension) :
  dom (updateKeyShares f extMap) = dom extMap.
Proof.
  unfold updateKeyShares. destruct (extMap !! "51") as [te|] eqn:E; [|done].
  destruct te; try done. apply dom_insert_known. by rewrite E.
Qed.

Lemma curveCatalog_dom g (extMap : gmap string TLSExtension) :
  dom (curveCatalog g extMap) = dom extMap.
Proof.
  unfold curveCatalog. destruct g.
  - by rewrite updateKeyShares_dom, updateVersions_dom.
  - by rewrite updateKeyShares_dom.
Qed.

Lemma setOverride_keeps {A} key (mk : A -> TLSExtension) p
    (extMap : gmap string TLSExtension) :
  is_Some (genMap !! key) -> dom genMap ⊆ dom extMap ->
  dom (setOverride key mk p extMap) = dom extMap.
Proof.
  intros Hk Hsub. apply setOverride_dom, Hsub. by apply elem_of_dom.
Qed.

Ltac override_dom :=
  lazymatch goal with
  | |- dom (setOverride ?k ?mk ?p ?m) = ?d =>
      let E := fresh "E" in
      assert (E : dom m = d) by override_dom;
      transitivity (dom m); [|exact E];
      apply setOverride_keeps; [vm_compute; eauto | try rewrite E; assumption]
  | |- _ => reflexivity
  end.

Lemma applyOverrides_dom t (extMap : gmap string TLSExtension) :
  dom genMap ⊆ dom extMap -> dom (applyOverrides t extMap) = dom extMap.
Proof. intros Hsub. unfold applyOverrides. override_dom. Qed.

Lemma mergedCatalog_dom g t curveIDs pointIDs :
  dom (mergedCatalog g t curveIDs pointIDs) = catalogIDs.
Proof.
  unfold mergedCatalog, catalogIDs.
  rewrite applyOverrides_dom; rewrite !dom_insert_L, curveCatalog_dom;
    generalize (dom genMap); intros D.
  - apply set_eq. intros x. rewrite !elem_of_union. tauto.
  - intros x Hx. rewrite !elem_of_union. tauto.
Qed.

Lemma mergedCatalog_lookup_None g t curveIDs pointIDs x :
  mergedCatalog g t curveIDs pointIDs !! x = None <-> x ∉ catalogIDs.
Proof. by rewrite <- (mergedCatalog_dom g t curveIDs pointIDs), not_elem_of_dom. Qed.

Lemma mergedCatalog_lookup_Some g t curveIDs pointIDs x :
  is_Some (mergedCatalog g t curveIDs pointIDs !! x) <-> x ∈ catalogIDs.
Proof. by rewrite <- (mergedCatalog_dom g t curveIDs pointIDs), elem_of_dom. Qed.

Lemma genMap_noMarkers : noMarkers genMap.
Proof.
  intros k te H. unfold genMap in H. apply elem_of_list_to_map_2 in H.
  repeat (apply elem_of_cons in H as [[= _ ->]|H]; [reflexivity|]).
  by apply elem_of_nil in H.
Qed.

Lemma insert_noMarkers extMap k te :
  isMarker te = false -> noMarkers extMap -> noMarkers (<[k := te]> extMap).
Proof. intros. by apply map_Forall_insert_2. Qed.

Lemma setOverride_noMarkers {A} key (mk : A -> TLSExtension) p extMap :
  (forall x, isMarker (mk x) = false) -> noMarkers extMap ->
  noMarkers (setOverride key mk p extMap).
Proof. intros Hmk Hm. destruct p; simpl; [by apply insert_noMarkers | done]. Qed.

Lemma updateVersions_noMarkers f extMap :
  noMarkers extMap -> noMarkers (updateVersions f extMap).
Proof.
  intros Hm. unfold updateVersions.
  destruct (extMap !! "43") as [[]|]; try done. by apply insert_noMarkers.
Qed.

Lemma updateKeyShares_noMarkers f extMap :
  noMarkers extMap -> noMarkers (updateKeyShares f extMap).
Proof.
  intros Hm. unfold updateKeyShares.
  destruct (extMap !! "51") as [[]|]; try done. by apply insert_noMarkers.
Qed.

Lemma curveCatalog_noMarkers g extMap :
  noMarkers extMap -> noMarkers (curveCatalog g extMap).
Proof.
  intros Hm. unfold curveCatalog. destruct g.
  - by apply updateKeyShares_noMarkers, updateVersions_noMarkers.
  - by apply updateKeyShares_noMarkers.
Qed.

(** No entry of the catalog the ids are looked up in is a marker. *)
Lemma mergedCatalog_noMarkers g t curveIDs pointIDs :
  noMarkers (mergedCatalog g t curveIDs pointIDs).
Proof.
  unfold mergedCatalog, applyOverrides.
  repeat (apply setOverride_noMarkers; [done|]).
  repeat (apply insert_noMarkers; [done|]).
  apply curveCatalog_noMarkers, genMap_noMarkers.
Qed.

(** *** Looking the ids up *)

Lemma lookupAll_inl_inv extMap es tes :
  lookupAll extMap es = inl tes ->
  Forall2 (fun e te => extMap !! e = Some te) es tes.
Proof.
  revert tes. induction es as [|e es IH]; intros tes; simpl.
  - intros [= <-]. constructor.
  - destruct (extMap !! e) as [te|] eqn:E; [|done].
    destruct (lookupAll extMap es) as [tes'|]; [|done].
    intros [= <-]. constructor; [done | by apply IH].
Qed.

Lemma lookupAll_inl extMap es :
  Forall (fun e => is_Some (extMap !! e)) es -> exists tes, lookupAll extMap es = inl tes.
Proof.
  induction 1 as [|e es [te He] _ [tes IH]]; simpl; [eauto|].
  rewrite He, IH. eauto.
Qed.

(** A failing lookup stops at the first id without an entry. *)
Lemma lookupAll_inr extMap es x :
  lookupAll extMap es = inr x <->
  exists pre post,
    es = pre ++ x :: post /\ Forall (fun e => is_Some (extMap !! e)) pre /\
    extMap !! x = None.
Proof.
  split.
  - induction es as [|e es IH]; simpl; [done|].
    destruct (extMap !! e) as [te|] eqn:E.
    + destruct (lookupAll extMap es) as [tes|y]; [done|].
      intros [= ->]. destruct (IH eq_refl) as (pre & post & -> & Hpre & Hx).
      exists (e :: pre), post. repeat split; [|done].
      constructor; [by rewrite E | done].
    + intros [= <-]. exists [], es. by repeat split.
  - intros (pre & post & -> & Hpre & Hx).
    induction Hpre as [|e pre [te He] _ IH]; simpl.
    + by rewrite Hx.
    + by rewrite He, IH.
Qed.

Lemma withFinalMarker_snoc g eInit eLast tInit tLast :
  length tInit = length eInit ->
  withFinalMarker g (eInit ++ [eLast]) (tInit ++ [tLast]) =
  tInit ++ (if g && isPskOrPadding eLast then [UtlsGREASEExtension] else []) ++ [tLast].
Proof.
  revert tInit. induction eInit as [|e eInit IH]; intros [|te tInit] Hlen; try done.
  simpl in Hlen. injection Hlen as Hlen.
  change ((e :: eInit) ++ [eLast]) with (e :: (eInit ++ [eLast])).
  change ((te :: tInit) ++ [tLast]) with (te :: (tInit ++ [tLast])).
  cbn [withFinalMarker]. rewrite (IH _ Hlen).
  destruct eInit; reflexivity.
Qed.

Lemma lastID_snoc eInit eLast : lastID (eInit ++ [eLast]) = eLast.
Proof. apply last_last. Qed.

Lemma snoc_of_nonempty {A} (l : list A) : l <> [] -> exists init x, l = init ++ [x].
Proof. intros H. destruct (exists_last H) as (init & x & ->). eauto. Qed.

Lemma setOverride_lookup_ne {A} key (mk : A -> TLSExtension) p
    (extMap : gmap string TLSExtension) k :
  k <> key -> setOverride key mk p extMap !! k = extMap !! k.
Proof. intros Hne. destruct p; simpl; [by rewrite lookup_insert_ne|done]. Qed.

(** An id that is none of the eight overridable ones keeps its entry. *)
Lemma applyOverrides_lookup_ne t (extMap : gmap string TLSExtension) k :
  k ∉ ["13"; "27"; "28"; "34"; "43"; "45"; "50"; "51"] ->
  applyOverrides t extMap !! k = extMap !! k.
Proof.
  intros Hk. unfold applyOverrides.
  rewrite !setOverride_lookup_ne; [done|..];
    intros ->; apply Hk; repeat constructor.
Qed.

(** The two ways a call can go: fewer than five fields and a panic, or five
    fields or more and the checks of [compile]. *)
Lemma StringToSpec_cases m te ja3 ua :
  (len (GoStrings.Split ja3 ",") < 5 /\
   StringToSpec m te ja3 ua =
   Panic (IndexOutOfRange (len (GoStrings.Split ja3 ",")) (len (GoStrings.Split ja3 ",")))) \/
  (exists f,
     splitJA3 ja3 = inl f /\
     StringToSpec m te ja3 ua =
     compile (greaseOn (parseUserAgent m ua) (receiverOrZero te)) (receiverOrZero te) f).
Proof.
  destruct (Z.ltb_spec (len (GoStrings.Split ja3 ",")) 5) as [Hlt|Hge].
  - left. split; [done|]. by apply StringToSpec_short.
  - right.
    destruct (GoStrings.Split ja3 ",") as [|v [|cf [|ef [|cvf [|pff rest]]]]] eqn:E;
      try (unfold len in Hge; cbn [length] in Hge; lia).
    eexists. split; [by apply (splitJA3_fields _ _ _ _ _ _ _ E)|].
    apply StringToSpec_compile. by apply (splitJA3_fields _ _ _ _ _ _ _ E).
Qed.

(** A plan is returned only for a fingerprint of five or more fields. *)
Lemma StringToSpec_plan_fields m te ja3 ua plan err :
  StringToSpec m te ja3 ua = Return plan err ->
  exists f,
    splitJA3 ja3 = inl f /\
    compile (greaseOn (parseUserAgent m ua) (receiverOrZero te)) (receiverOrZero te) f
    = Return plan err.
Proof.
  intros H. destruct (StringToSpec_cases m te ja3 ua) as [[_ Hp]|(f & Hf & Hc)].
  - rewrite Hp in H. discriminate.
  - exists f. split; [done|]. by rewrite <- Hc.
Qed.

Lemma StringToSpec_no_nil_dereference m te ja3 ua :
  StringToSpec m te ja3 ua <> Panic NilPointerDereference.
Proof.
  destruct (StringToSpec_cases m te ja3 ua) as [[_ ->]|(f & Hf & ->)]; [done|].
  destruct (compile_returns (greaseOn (parseUserAgent m ua) (receiverOrZero te))
              (receiverOrZero te) f) as [[plan ->]|[err ->]]; done.
Qed.

Lemma withFinalMarker_false es tes :
  length tes = length es -> withFinalMarker false es tes = tes.
Proof.
  revert tes. induction es as [|e es IH]; intros [|te tes] Hlen; try done.
  injection Hlen as Hlen. cbn [withFinalMarker].
  destruct es as [|e' es'].
  - by destruct tes.
  - by rewrite (IH _ Hlen).
Qed.

(** The values a token loop appends are the numbers of its tokens, in
    order, unchanged by the conversion to the narrower type. *)
Lemma parseAll_values bitSize conv toks ids :
  0 < bitSize <= 64 ->
  (forall n, 0 <= n < 2 ^ bitSize -> conv n = n) ->
  parseAll bitSize conv toks = inl ids ->
  Forall2 (fun tok id => GoStrconv.ParseUint tok bitSize = (id, None)) toks ids.
Proof.
  intros Hb Hconv. revert ids. induction toks as [|c toks IH]; intros ids; simpl.
  - intros [= <-]. constructor.
  - destruct (GoStrconv.ParseUint c bitSize) as [cid [e|]] eqn:E; [done|].
    destruct (parseAll bitSize conv toks) as [vs|]; [|done].
    intros [= <-]. rewrite (Hconv cid) by (by apply (ParseUint_range c)).
    constructor; [done | by apply IH].
Qed.

Lemma uint16_small n : 0 <= n < 2 ^ 16 -> uint16 n = n.
Proof. intros H. by apply Z.mod_small. Qed.

Lemma greaseOn_firefox t : greaseOn firefox t = false.
Proof. reflexivity. Qed.

Lemma greaseOn_suppressed pua t : NotUsedGREASE t = true -> greaseOn pua t = false.
Proof. intros H. unfold greaseOn. rewrite H. apply andb_false_r. Qed.

(** The flag does not enter [compile] except through the condition [g]. *)
Lemma compile_flag g b t f : compile g (setNotUsedGREASE b t) f = compile g t f.
Proof. reflexivity. Qed.

Lemma parseAll_of_values bitSize conv toks ids :
  0 < bitSize <= 64 ->
  (forall n, 0 <= n < 2 ^ bitSize -> conv n = n) ->
  Forall2 (fun tok id => GoStrconv.ParseUint tok bitSize = (id, None)) toks ids ->
  parseAll bitSize conv toks = inl ids.
Proof.
  intros Hb Hconv. induction 1 as [|c id toks ids Hc _ IH]; simpl; [done|].
  rewrite Hc, IH, (Hconv id); [done|]. by apply (ParseUint_range c).
Qed.

Lemma StringToSpec_inr m te ja3 ua o :
  splitJA3 ja3 = inr o -> StringToSpec m te ja3 ua = o.
Proof. intros H. unfold StringToSpec, StringToSpec_body. by rewrite H. Qed.

Lemma lookupAll_elem extMap es tes x te :
  lookupAll extMap es = inl tes -> x ∈ es -> extMap !! x = Some te -> te ∈ tes.
Proof.
  intros Hl Hx Hte. apply lookupAll_inl_inv in Hl.
  apply list_elem_of_lookup in Hx as [i Hi].
  destruct (Forall2_lookup_l _ _ _ _ _ Hl Hi) as (te' & Hi' & Hte').
  rewrite Hte in Hte'. injection Hte' as <-.
  apply list_elem_of_lookup. eauto.
Qed.

Lemma placeMarkers_elem g es tes te :
  length tes = length es -> te ∈ tes -> te ∈ placeMarkers g es tes.
Proof.
  intros Hlen Hte. unfold placeMarkers.
  rewrite !elem_of_app. right. left.
  destruct es as [|e0 es0] using rev_ind.
  { destruct tes; [by apply elem_of_nil in Hte | done]. }
  clear IHes0.
  destruct tes as [|t0 ts0] using rev_ind.
  { by apply elem_of_nil in Hte. }
  clear IHts0. rewrite !length_app in Hlen. cbn [length] in Hlen.
  rewrite withFinalMarker_snoc by lia.
  rewrite elem_of_app in Hte. rewrite !elem_of_app. tauto.
Qed.

Lemma setOverride_lookup_eq {A} key (mk : A -> TLSExtension) p
    (extMap : gmap string TLSExtension) :
  setOverride key mk p extMap !! key =
  match mk <$> p with
  | Some x => Some x
  | None => extMap !! key
  end.
Proof. destruct p; simpl; [by rewrite lookup_insert_eq|done]. Qed.

Ltac override_lookup_at :=
  unfold applyOverrides, overrideEntry;
  repeat (rewrite setOverride_lookup_ne by done);
  rewrite setOverride_lookup_eq;
  repeat (rewrite setOverride_lookup_ne by done);
  reflexivity.

Lemma applyOverrides_lookup t (extMap : gmap string TLSExtension) k :
  applyOverrides t extMap !! k =
  match overrideEntry t k with
  | Some x => Some x
  | None => extMap !! k
  end.
Proof.
  destruct (String.eqb_spec k "13") as [->|H13]; [override_lookup_at|].
  destruct (String.eqb_spec k "27") as [->|H27]; [override_lookup_at|].
  destruct (String.eqb_spec k "28") as [->|H28]; [override_lookup_at|].
  destruct (String.eqb_spec k "34") as [->|H34]; [override_lookup_at|].
  destruct (String.eqb_spec k "43") as [->|H43]; [override_lookup_at|].
  destruct (String.eqb_spec k "45") as [->|H45]; [override_lookup_at|].
  destruct (String.eqb_spec k "50") as [->|H50]; [override_lookup_at|].
  destruct (String.eqb_spec k "51") as [->|H51]; [override_lookup_at|].
  unfold applyOverrides, overrideEntry.
  rewrite !setOverride_lookup_ne by done.
  by repeat match goal with H : k <> _ |- _ => apply String.eqb_neq in H; rewrite H; clear H end.
Qed.

Lemma mergedCatalog_markerFreeEntry t curveIDs pointIDs e x :
  mergedCatalog false t curveIDs pointIDs !! e = Some x ->
  markerFreeEntry t curveIDs pointIDs e x.
Proof.
  unfold mergedCatalog, markerFreeEntry. rewrite applyOverrides_lookup.
  destruct (overrideEntry t e) as [x'|]; [by intros [= ->]|].
  destruct (String.eqb_spec e "10") as [->|H10].
  { rewrite lookup_insert_ne, lookup_insert_eq by done. by intros [= <-]. }
  destruct (String.eqb_spec e "11") as [->|H11].
  { rewrite lookup_insert_eq. by intros [= <-]. }
  rewrite !lookup_insert_ne by done. unfold curveCatalog.
  rewrite updateKeyShares_lookup.
  destruct (String.eqb_spec e "51") as [->|H51].
  - rewrite decide_True by done.
    assert (E : genMap !! "51" = Some (KeyShareExtension [mkKeyShare X25519 []]))
      by (vm_compute; reflexivity).
    rewrite E. intros H. injection H as <-. reflexivity.
  - rewrite decide_False by done. intros H. exact H.
Qed.

Lemma genMap_noGREASE k x : genMap !! k = Some x -> hasGREASE x = false.
Proof.
  intros H. unfold genMap in H. apply elem_of_list_to_map_2 in H.
  repeat (apply elem_of_cons in H as [[= _ ->]|H]; [reflexivity|]).
  by apply elem_of_nil in H.
Qed.

Lemma existsb_absent (v : Z) (l : list Z) : v ∉ l -> existsb (Z.eqb v) l = false.
Proof.
  induction l as [|y l IH]; [done|]. intros Hv. simpl.
  rewrite not_elem_of_cons in Hv. destruct Hv as [Hne Hv].
  rewrite IH by done. by destruct (Z.eqb_spec v y).
Qed.

Lemma values_absent toks ids v :
  Forall2 (fun tok id => GoStrconv.ParseUint tok 16 = (id, None)) toks ids ->
  Forall (fun tok => fst (GoStrconv.ParseUint tok 16) <> v) toks ->
  v ∉ ids.
Proof.
  intros H2 Hno Hin. apply list_elem_of_lookup in Hin as [i Hi].
  destruct (Forall2_lookup_r _ _ _ _ _ H2 Hi) as (tok & Htok & Hv).
  rewrite Forall_forall in Hno. apply (Hno tok).
  - apply list_elem_of_lookup. eauto.
  - by rewrite Hv.
Qed.

Lemma markerFreeEntry_noGREASE t curveIDs pointIDs e x :
  (forall k y, overrideEntry t k = Some y -> hasGREASE y = false) ->
  GREASE_PLACEHOLDER ∉ curveIDs ->
  markerFreeEntry t curveIDs pointIDs e x -> hasGREASE x = false.
Proof.
  intros Hov Hcv. unfold markerFreeEntry.
  destruct (overrideEntry t e) as [x'|] eqn:E; [intros ->; by apply (Hov e)|].
  destruct (String.eqb e "10").
  { intros ->. unfold hasGREASE. cbn [isMarker codepoints orb]. by apply existsb_absent. }
  destruct (String.eqb e "11"); [by intros ->|].
  destruct (String.eqb e "51"); [by intros ->|].
  apply genMap_noGREASE.
Qed.

(** ** The claims *)

(** C1. A fingerprint with fewer than five fields makes [StringToSpec]
    panic: the slice access [tokens[n]], [n] being the number of fields, is
    out of range. Nothing is returned, neither a plan nor an error. *)
Theorem fewer_than_five_fields_panics m te ja3 ua :
  len (GoStrings.Split ja3 ",") < 5 ->
  let n := len (GoStrings.Split ja3 ",") in
  StringToSpec m te ja3 ua = Panic (IndexOutOfRange n n) /\
  forall spec err, StringToSpec m te ja3 ua <> Return spec err.
Proof.
  intros H n. rewrite (StringToSpec_inr m te ja3 ua _ (splitJA3_short ja3 H)).
  split; [reflexivity | discriminate].
Qed.

Lemma fewer_than_five_fields_panics_witness :
  len (GoStrings.Split "771,4865-4866,0-10-11,29-23-24" ",") < 5 /\
  StringToSpec idLower None "771,4865-4866,0-10-11,29-23-24" "Chrome" =
  Panic (IndexOutOfRange 4 4).
Proof.
  split; [reflexivity|].
  apply (fewer_than_five_fields_panics idLower None "771,4865-4866,0-10-11,29-23-24" "Chrome").
  reflexivity.
Defined.

(** C2, the claim as stated fails for the cipher field and for the
    extension field: neither has the guard, an empty field is split into the
    one empty token, and compilation fails on that token. *)
Lemma empty_list_fields_counterexample :
  GoStrings.Split "771,,0,29,0" "," = ["771"; EmptyString; "0"; "29"; "0"] /\
  splitJA3 "771,,0,29,0" = inl (mkJa3Fields "771" [EmptyString] ["0"] ["29"] ["0"]) /\
  StringToSpec idLower None "771,,0,29,0" "Firefox" =
    Return None (Some (NumErrorOf (GoStrconv.syntaxError "ParseUint" EmptyString))) /\
  GoStrings.Split "771,4865,,29,0" "," = ["771"; "4865"; EmptyString; "29"; "0"] /\
  splitJA3 "771,4865,,29,0" = inl (mkJa3Fields "771" ["4865"] [EmptyString] ["29"] ["0"]) /\
  StringToSpec idLower None "771,4865,,29,0" "Firefox" =
    Return None (Some (ExtensionNotExistOf (raiseExtensionError EmptyString))).
Proof. repeat split; reflexivity. Qed.

(** C2, amended. In a fingerprint of five fields or more, a curve field or
    a point-format field that is the empty string parses to the empty list
    (an empty cipher field or extension field parses to the list of one
    empty token), and compilation does not fail because of an empty curve
    or point-format field: when the version and the cipher tokens are
    accepted, every extension id has a catalog entry, and each of the curve
    and point-format fields is empty or has accepted tokens only, a plan is
    returned; in it the entry of id "10" holds no curve but the GREASE
    placeholder of a chrome-like identity, and the entry of id "11" holds
    no point format, when the field is empty. *)
Theorem empty_curve_and_point_format_fields m te ja3 ua v cf ef cvf pff rest :
  GoStrings.Split ja3 "," = v :: cf :: ef :: cvf :: pff :: rest ->
  exists f,
    splitJA3 ja3 = inl f /\
    (cvf = EmptyString -> curves f = []) /\
    (pff = EmptyString -> pointFormats f = []) /\
    (cf = EmptyString -> ciphers f = [EmptyString]) /\
    (ef = EmptyString -> extensions f = [EmptyString]) /\
    (tokenOK 16 v ->
     Forall (tokenOK 16) (GoStrings.Split cf "-") ->
     Forall (fun e => e ∈ catalogIDs) (GoStrings.Split ef "-") ->
     cvf = EmptyString \/ Forall (tokenOK 16) (GoStrings.Split cvf "-") ->
     pff = EmptyString \/ Forall (tokenOK 8) (GoStrings.Split pff "-") ->
     exists plan,
       StringToSpec m te ja3 ua = Return (Some plan) None /\
       (cvf = EmptyString -> ("10" ∈ GoStrings.Split ef "-") ->
        SupportedCurvesExtension
          (if greaseOn (parseUserAgent m ua) (receiverOrZero te)
           then [GREASE_PLACEHOLDER] else []) ∈ Extensions plan) /\
       (pff = EmptyString -> ("11" ∈ GoStrings.Split ef "-") ->
        SupportedPointsExtension [] ∈ Extensions plan)).
Proof.
  intros Hsplit. eexists. split; [by apply (splitJA3_fields _ _ _ _ _ _ _ Hsplit)|].
  cbn [curves pointFormats ciphers extensions].
  split; [by intros ->|]. split; [by intros ->|].
  split; [by intros ->|]. split; [by intros ->|].
  intros Hv Hc He Hcv Hpf.
  rewrite (StringToSpec_compile _ _ _ _ _ (splitJA3_fields _ _ _ _ _ _ _ Hsplit)).
  unfold compile. cbn [curves pointFormats version extensions ciphers].
  assert (Hcv' : exists curveIDs,
             parseAll 16 uint16 (dropBlank (GoStrings.Split cvf "-")) = inl curveIDs /\
             (cvf = EmptyString -> curveIDs = [])).
  { destruct Hcv as [->|Hcv]; [by exists []|].
    assert (Hd : Forall (tokenOK 16) (dropBlank (GoStrings.Split cvf "-"))).
    { unfold dropBlank. repeat case_match; done || constructor. }
    destruct (parseAll_inl 16 uint16 _ Hd) as [ids Hids]. exists ids. split; [done|].
    intros ->. by injection Hids. }
  assert (Hpf' : exists pointIDs,
             parseAll 8 byte (dropBlank (GoStrings.Split pff "-")) = inl pointIDs /\
             (pff = EmptyString -> pointIDs = [])).
  { destruct Hpf as [->|Hpf]; [by exists []|].
    assert (Hd : Forall (tokenOK 8) (dropBlank (GoStrings.Split pff "-"))).
    { unfold dropBlank. repeat case_match; done || constructor. }
    destruct (parseAll_inl 8 byte _ Hd) as [ids Hids]. exists ids. split; [done|].
    intros ->. by injection Hids. }
  destruct Hcv' as (curveIDs & -> & Hcv0). destruct Hpf' as (pointIDs & -> & Hpf0).
  unfold tokenOK in Hv.
  destruct (GoStrconv.ParseUint v 16) as [vid64 [e|]]; [done|].
  set (g := greaseOn (parseUserAgent m ua) (receiverOrZero te)).
  set (extMap := mergedCatalog g (receiverOrZero te) curveIDs pointIDs).
  assert (Hl : exists tes, lookupAll extMap (GoStrings.Split ef "-") = inl tes).
  { apply lookupAll_inl. eapply Forall_impl; [exact He|].
    intros x Hx. by apply mergedCatalog_lookup_Some. }
  destruct Hl as [tes Hl]. rewrite Hl.
  destruct (parseAll_inl 16 uint16 _ Hc) as [cipherIDs ->].
  eexists. split; [reflexivity|]. cbn [Extensions].
  pose proof (Forall2_length _ _ _ (lookupAll_inl_inv _ _ _ Hl)) as Hlen.
  split.
  - intros Hcv1 H10. apply placeMarkers_elem; [done|].
    apply (lookupAll_elem _ _ _ "10" _ Hl H10).
    unfold extMap, mergedCatalog.
    rewrite applyOverrides_lookup_ne
      by (intros H; repeat (apply elem_of_cons in H as [[=]|H]); by apply elem_of_nil in H).
    rewrite lookup_insert_ne, lookup_insert_eq by done.
    rewrite (Hcv0 Hcv1), app_nil_r. reflexivity.
  - intros Hpf1 H11. apply placeMarkers_elem; [done|].
    apply (lookupAll_elem _ _ _ "11" _ Hl H11).
    unfold extMap, mergedCatalog.
    rewrite applyOverrides_lookup_ne
      by (intros H; repeat (apply elem_of_cons in H as [[=]|H]); by apply elem_of_nil in H).
    rewrite lookup_insert_eq. by rewrite (Hpf0 Hpf1).
Qed.

Lemma empty_curve_and_point_format_fields_witness :
  GoStrings.Split "771,4865,0-10-11,," "," =
    ["771"; "4865"; "0-10-11"; EmptyString; EmptyString] /\
  exists f plan,
    splitJA3 "771,4865,0-10-11,," = inl f /\
    curves f = [] /\ pointFormats f = [] /\
    StringToSpec idLower None "771,4865,0-10-11,," "Chrome" = Return (Some plan) None /\
    (SupportedCurvesExtension [GREASE_PLACEHOLDER] ∈ Extensions plan) /\
    (SupportedPointsExtension [] ∈ Extensions plan).
Proof.
  split; [reflexivity|].
  assert (Hin : forall k, is_Some (mergedCatalog false zeroTLSExtensions [] [] !! k) ->
                          k ∈ catalogIDs).
  { intros k. apply mergedCatalog_lookup_Some. }
  destruct (empty_curve_and_point_format_fields idLower None "771,4865,0-10-11,," "Chrome"
              "771" "4865" "0-10-11" EmptyString EmptyString [] eq_refl)
    as (f & Hf & Hcv & Hpf & _ & _ & Hrun).
  destruct Hrun as (plan & Hplan & H10 & H11).
  - reflexivity.
  - repeat constructor.
  - change (GoStrings.Split "0-10-11" "-") with ["0"; "10"; "11"].
    repeat constructor; apply Hin; vm_compute; eauto.
  - by left.
  - by left.
  - exists f, plan. split; [exact Hf|]. split; [by apply Hcv|]. split; [by apply Hpf|].
    split; [exact Hplan|].
    change (GoStrings.Split "0-10-11" "-") with ["0"; "10"; "11"] in H10, H11.
    split; [apply H10 | apply H11]; try reflexivity; repeat constructor.
Defined.

(** C3, the claim as stated fails: an extension id that is not a number,
    or that is a number above 16 bits, is not rejected as a numeric-format
    error; it is looked up as a string and reported as an unsupported
    extension. *)
Lemma numeric_token_validation_counterexample :
  snd (GoStrconv.ParseUint "abc" 16) = Some (GoStrconv.syntaxError "ParseUint" "abc") /\
  StringToSpec idLower None "771,4865,0-abc,29,0" "Firefox" =
    Return None (Some (ExtensionNotExistOf (raiseExtensionError "abc"))) /\
  snd (GoStrconv.ParseUint "70000" 16) = Some (GoStrconv.rangeError "ParseUint" "70000") /\
  StringToSpec idLower None "771,4865,0-70000,29,0" "Firefox" =
    Return None (Some (ExtensionNotExistOf (raiseExtensionError "70000"))).
Proof. repeat split; reflexivity. Qed.

(** C3, amended. The tokens of the version, cipher and curve fields are
    validated by [ParseUint] as 16-bit and those of the point-format field
    as 8-bit unsigned decimal numbers: a token is accepted exactly when it
    is a non-empty string of digits whose number fits the width. Extension
    ids are not validated as numbers. When a fingerprint of five fields or
    more has a token that fails the validation, [StringToSpec] returns a nil
    plan and an error. The error is the [NumError] of a rejected token of
    those fields, naming [ParseUint] and carrying the token (it has no
    component for the field); or, when the curve, point-format and version
    tokens are all accepted and an extension id has no catalog entry, it is
    the extension error of that id. *)
Theorem numeric_token_validation m te ja3 ua f :
  splitJA3 ja3 = inl f ->
  Exists (fun '(tok, bitSize) => ~ tokenOK bitSize tok) (numericTokens f) ->
  (forall tok bitSize, ((tok, bitSize) ∈ numericTokens f) ->
     (tokenOK bitSize tok <->
      exists n, decimalValue tok = Some n /\ n <= 2 ^ bitSize - 1)) /\
  exists err,
    StringToSpec m te ja3 ua = Return None (Some err) /\
    match err with
    | NumErrorOf e =>
        GoStrconv.Func e = "ParseUint" /\
        exists bitSize,
          ((GoStrconv.Num e, bitSize) ∈ numericTokens f) /\
          snd (GoStrconv.ParseUint (GoStrconv.Num e) bitSize) = Some e
    | ExtensionNotExistOf w =>
        (Context w ∈ extensions f) /\ (Context w ∉ catalogIDs) /\
        Forall (tokenOK 16) (curves f) /\ Forall (tokenOK 8) (pointFormats f) /\
        tokenOK 16 (version f)
    end.
Proof.
  intros Hf Hbad. split.
  { intros tok bitSize Hin.
    assert (Hb : 0 < bitSize <= 32).
    { unfold numericTokens in Hin.
      rewrite !elem_of_app, !list_elem_of_fmap, list_elem_of_singleton in Hin.
      destruct Hin as [(? & [= _ ->] & _)|[(? & [= _ ->] & _)|[[= _ ->]|(? & [= _ ->] & _)]]]; lia. }
    unfold tokenOK. split.
    - destruct (GoStrconv.ParseUint tok bitSize) as [n o] eqn:E. simpl. intros ->.
      exists n. by apply ParseUint_decimal.
    - intros (n & Hn). apply (ParseUint_decimal tok bitSize n Hb) in Hn. by rewrite Hn. }
  assert (Hnum : forall bitSize conv toks e,
            parseAll bitSize conv toks = inr e ->
            GoStrconv.Func e = "ParseUint" /\
            (GoStrconv.Num e ∈ toks) /\
            snd (GoStrconv.ParseUint (GoStrconv.Num e) bitSize) = Some e).
  { intros bitSize conv toks e He.
    apply parseAll_inr in He as (pre & tok & post & -> & _ & Htok).
    destruct (GoStrconv.ParseUint tok bitSize) as [r o] eqn:E. simpl in Htok. subst o.
    destruct (ParseUint_error _ _ _ _ E) as [HF HN]. rewrite HN, E.
    split; [done|]. split; [|done]. rewrite elem_of_app, elem_of_cons. auto. }
  rewrite (StringToSpec_compile _ _ _ _ _ Hf). unfold compile.
  destruct (parseAll 16 uint16 (curves f)) as [curveIDs|e] eqn:Hcv.
  2:{ eexists. split; [reflexivity|]. destruct (Hnum _ _ _ _ Hcv) as (HF & Hin & Htok).
      split; [done|]. exists 16. split; [|done].
      unfold numericTokens. rewrite elem_of_app, list_elem_of_fmap. left. eauto. }
  destruct (parseAll 8 byte (pointFormats f)) as [pointIDs|e] eqn:Hpf.
  2:{ eexists. split; [reflexivity|]. destruct (Hnum _ _ _ _ Hpf) as (HF & Hin & Htok).
      split; [done|]. exists 8. split; [|done].
      unfold numericTokens. rewrite !elem_of_app, !list_elem_of_fmap. right. left. eauto. }
  destruct (GoStrconv.ParseUint (version f) 16) as [vid64 [e|]] eqn:Hv.
  { eexists. split; [reflexivity|]. destruct (ParseUint_error _ _ _ _ Hv) as [HF HN].
    split; [done|]. exists 16. rewrite HN, Hv. split; [|done].
    unfold numericTokens. rewrite !elem_of_app, list_elem_of_singleton. right. right. by left. }
  apply parseAll_inl_Forall in Hcv, Hpf.
  destruct (lookupAll _ (extensions f)) as [tes|x] eqn:Hl.
  2:{ eexists. split; [reflexivity|]. cbn [Context raiseExtensionError].
      apply lookupAll_inr in Hl as (pre & post & Hes & _ & Hx).
      split; [rewrite Hes, elem_of_app, elem_of_cons; auto|].
      split; [by apply mergedCatalog_lookup_None in Hx|].
      split; [done|]. split; [done|]. unfold tokenOK. by rewrite Hv. }
  destruct (parseAll 16 uint16 (ciphers f)) as [cipherIDs|e] eqn:Hc.
  2:{ eexists. split; [reflexivity|]. destruct (Hnum _ _ _ _ Hc) as (HF & Hin & Htok).
      split; [done|]. exists 16. split; [|done].
      unfold numericTokens. rewrite !elem_of_app, !list_elem_of_fmap. right. right. right. eauto. }
  exfalso. apply parseAll_inl_Forall in Hc.
  apply Exists_exists in Hbad as ([tok bitSize] & Hin & Hno). apply Hno.
  rewrite Forall_forall in Hcv, Hpf, Hc.
  unfold numericTokens in Hin.
  rewrite !elem_of_app, !list_elem_of_fmap, list_elem_of_singleton in Hin.
  destruct Hin as [(c & [= -> ->] & Hc')|[(c & [= -> ->] & Hc')|[[= -> ->]|(c & [= -> ->] & Hc')]]];
    [by apply Hcv | by apply Hpf | unfold tokenOK; by rewrite Hv | by apply Hc].
Qed.

Lemma numeric_token_validation_witness :
  splitJA3 "771,4865,0-10-11,29,256" =
    inl (mkJa3Fields "771" ["4865"] ["0"; "10"; "11"] ["29"] ["256"]) /\
  Exists (fun '(tok, bitSize) => ~ tokenOK bitSize tok)
    (numericTokens (mkJa3Fields "771" ["4865"] ["0"; "10"; "11"] ["29"] ["256"])) /\
  exists err,
    StringToSpec idLower None "771,4865,0-10-11,29,256" "Chrome" = Return None (Some err) /\
    match err with
    | NumErrorOf e =>
        GoStrconv.Func e = "ParseUint" /\
        exists bitSize,
          ((GoStrconv.Num e, bitSize) ∈
             numericTokens (mkJa3Fields "771" ["4865"] ["0"; "10"; "11"] ["29"] ["256"])) /\
          snd (GoStrconv.ParseUint (GoStrconv.Num e) bitSize) = Some e
    | ExtensionNotExistOf w =>
        (Context w ∈ ["0"; "10"; "11"]) /\ (Context w ∉ catalogIDs) /\
        Forall (tokenOK 16) ["29"] /\ Forall (tokenOK 8) ["256"] /\
        tokenOK 16 "771"
    end.
Proof.
  assert (Hf : splitJA3 "771,4865,0-10-11,29,256" =
               inl (mkJa3Fields "771" ["4865"] ["0"; "10"; "11"] ["29"] ["256"]))
    by reflexivity.
  assert (Hbad : Exists (fun '(tok, bitSize) => ~ tokenOK bitSize tok)
            (numericTokens (mkJa3Fields "771" ["4865"] ["0"; "10"; "11"] ["29"] ["256"]))).
  { apply Exists_cons_tl, Exists_cons_hd. discriminate. }
  split; [exact Hf|]. split; [exact Hbad|].
  exact (proj2 (numeric_token_validation idLower None _ "Chrome" _ Hf Hbad)).
Defined.

(** C4. For a fingerprint that compiles, the extension sequence has as
    many entries as the fingerprint has extension ids, plus the markers: for
    a chrome-like identity with randomization not suppressed, a leading
    marker and either a marker just before the last entry, when the last id
    is "41" or "21", or a trailing marker otherwise, two in all; for every
    other identity or flag, none. The entries themselves are not markers. *)
Theorem extension_sequence_markers m te ja3 ua plan :
  StringToSpec m te ja3 ua = Return (Some plan) None ->
  exists f eInit eLast tInit tLast,
    splitJA3 ja3 = inl f /\
    extensions f = eInit ++ [eLast] /\
    length tInit = length eInit /\
    Forall (fun x => isMarker x = false) (tInit ++ [tLast]) /\
    Extensions plan =
      (if greaseOn (parseUserAgent m ua) (receiverOrZero te) then
         if isPskOrPadding eLast
         then [UtlsGREASEExtension] ++ tInit ++ [UtlsGREASEExtension] ++ [tLast]
         else [UtlsGREASEExtension] ++ tInit ++ [tLast] ++ [UtlsGREASEExtension]
       else tInit ++ [tLast]) /\
    length (Extensions plan) =
      (length (extensions f) +
       (if greaseOn (parseUserAgent m ua) (receiverOrZero te) then 2 else 0))%nat.
Proof.
  intros Hplan. apply StringToSpec_plan_fields in Hplan as (f & Hf & Hplan).
  pose proof (splitJA3_extensions _ _ Hf) as Hne.
  apply snoc_of_nonempty in Hne as (eInit & eLast & Hes).
  unfold compile in Hplan.
  destruct (parseAll 16 uint16 (curves f)) as [curveIDs|]; [|done].
  destruct (parseAll 8 byte (pointFormats f)) as [pointIDs|]; [|done].
  destruct (GoStrconv.ParseUint (version f) 16) as [? [?|]]; [done|].
  destruct (lookupAll _ (extensions f)) as [tes|] eqn:Hl; [|done].
  destruct (parseAll 16 uint16 (ciphers f)) as [cipherIDs|]; [|done].
  injection Hplan as <-. cbn [Extensions].
  apply lookupAll_inl_inv in Hl. rewrite Hes in Hl |- *.
  apply Forall2_app_inv_l in Hl as (tInit & k & HInit & HLast & ->).
  apply Forall2_cons_inv_l in HLast as (tLast & k' & HtLast & Hnil & ->).
  apply Forall2_nil_inv_l in Hnil as ->.
  pose proof (Forall2_length _ _ _ HInit) as Hlen. symmetry in Hlen.
  exists f, eInit, eLast, tInit, tLast.
  split; [done|]. split; [done|]. split; [done|].
  split.
  { apply Forall_app. split.
    - apply Forall_forall. intros x Hx.
      apply list_elem_of_lookup in Hx as [i Hi].
      destruct (Forall2_lookup_r _ _ _ _ _ HInit Hi) as (e & _ & He).
      by apply (mergedCatalog_noMarkers _ _ _ _ _ _ He).
    - constructor; [|constructor].
      by apply (mergedCatalog_noMarkers _ _ _ _ _ _ HtLast). }
  unfold placeMarkers. rewrite (withFinalMarker_snoc _ _ _ _ _ Hlen), lastID_snoc.
  destruct (greaseOn (parseUserAgent m ua) (receiverOrZero te)),
    (isPskOrPadding eLast); cbn [andb negb app];
    rewrite ?app_nil_r, <- ?app_assoc; cbn [app]; (split; [reflexivity|]);
    rewrite Hes; cbn [length]; rewrite ?length_app; cbn [length]; lia.
Qed.

Lemma extension_sequence_markers_witness :
  StringToSpec idLower None "771,4865,0-51-21,29,0" "Chrome" =
    Return (Some {| CipherSuites := [GREASE_PLACEHOLDER; 4865];
                    CompressionMethods := [0];
                    Extensions := [UtlsGREASEExtension;
                                   SNIExtension;
                                   KeyShareExtension [mkKeyShare GREASE_PLACEHOLDER [0];
                                                      mkKeyShare X25519 []];
                                   UtlsGREASEExtension;
                                   UtlsPaddingExtension BoringPaddingStyle];
                    TLSVersMin := 0; TLSVersMax := 0;
                    GetSessionID := Some sha256_Sum256 |}) None /\
  exists f, splitJA3 "771,4865,0-51-21,29,0" = inl f /\
            (5 = length (extensions f) + 2)%nat.
Proof.
  split; [reflexivity|].
  destruct (extension_sequence_markers idLower None "771,4865,0-51-21,29,0" "Chrome" _ eq_refl)
    as (f & eInit & eLast & tInit & tLast & Hf & _ & _ & _ & _ & Hlen).
  exists f. split; [exact Hf|]. exact Hlen.
Defined.

(** C5. The block "parse curves", on any catalog. For a chrome-like
    identity with randomization not suppressed the GREASE placeholder is put
    in front of the curve list, in front of the version list of the
    supported-versions entry "43" when the catalog has one, and, as a key
    share of group GREASE with the single data byte 0, in front of the key
    shares of the key-share entry "51" when the catalog has one. Otherwise
    a P-256 key share is put at the end of the key shares of entry "51" and
    nothing else is added. In both cases the numbers of the curve tokens
    follow in order, the list is stored as entry "10" over any earlier
    value, and every other entry is left as it was. *)
Theorem curve_resolution pua t extMap curves ids :
  Forall2 (fun c id => GoStrconv.ParseUint c 16 = (id, None)) curves ids ->
  exists extMap',
    parseCurves pua (Some t) extMap curves = inl extMap' /\
    extMap' !! "10" =
      Some (SupportedCurvesExtension
              ((if greaseOn pua t then [GREASE_PLACEHOLDER] else []) ++ ids)) /\
    extMap' !! "43" =
      match extMap !! "43" with
      | Some (SupportedVersionsExtension Versions) =>
          Some (SupportedVersionsExtension
                  (if greaseOn pua t then GREASE_PLACEHOLDER :: Versions else Versions))
      | other => other
      end /\
    extMap' !! "51" =
      match extMap !! "51" with
      | Some (KeyShareExtension KeyShares) =>
          Some (KeyShareExtension
                  (if greaseOn pua t
                   then mkKeyShare GREASE_PLACEHOLDER [0] :: KeyShares
                   else KeyShares ++ [mkKeyShare CurveP256 []]))
      | other => other
      end /\
    forall k, k <> "10" -> k <> "43" -> k <> "51" -> extMap' !! k = extMap !! k.
Proof.
  intros Hids. eexists. split.
  { rewrite parseCurves_parseAll.
    rewrite (parseAll_of_values 16 uint16 curves ids); [reflexivity|lia|apply uint16_small|done]. }
  unfold greasePrefix, curveCatalog.
  split; [by rewrite lookup_insert_eq|].
  destruct (greaseOn pua t); repeat split; try (intros k H10 H43 H51);
    rewrite lookup_insert_ne, ?updateKeyShares_lookup, ?updateVersions_lookup by done;
    repeat ((rewrite decide_True by done) || (rewrite decide_False by done));
    try reflexivity.
  by destruct (extMap !! "43") as [[]|].
Qed.

Lemma curve_resolution_witness :
  Forall2 (fun c id => GoStrconv.ParseUint c 16 = (id, None)) ["29"; "23"; "24"] [29; 23; 24] /\
  exists extMap',
    parseCurves chrome (Some zeroTLSExtensions) genMap ["29"; "23"; "24"] = inl extMap' /\
    extMap' !! "10" = Some (SupportedCurvesExtension [GREASE_PLACEHOLDER; 29; 23; 24]) /\
    extMap' !! "43" =
      Some (SupportedVersionsExtension [GREASE_PLACEHOLDER; VersionTLS13; VersionTLS12]) /\
    extMap' !! "51" =
      Some (KeyShareExtension [mkKeyShare GREASE_PLACEHOLDER [0]; mkKeyShare X25519 []]).
Proof.
  assert (H : Forall2 (fun c id => GoStrconv.ParseUint c 16 = (id, None))
                ["29"; "23"; "24"] [29; 23; 24]) by (repeat constructor).
  split; [exact H|].
  destruct (curve_resolution chrome zeroTLSExtensions genMap _ _ H)
    as (extMap' & Hrun & H10 & H43 & H51 & _).
  exists extMap'. repeat split; assumption.
Defined.

(** C6, the claim as stated fails: the unknown id "99999" is in the
    extension list, but the curve token "abc" is rejected first and the
    error is the one of [ParseUint]. *)
Lemma unknown_extension_error_counterexample :
  ("99999" ∈ GoStrings.Split "0-99999" "-") /\
  ("99999" ∉ catalogIDs) /\
  StringToSpec idLower None "771,4865,0-99999,abc,0" "Firefox" =
  Return None (Some (NumErrorOf (GoStrconv.syntaxError "ParseUint" "abc"))).
Proof.
  split; [|split].
  - change (GoStrings.Split "0-99999" "-") with ["0"; "99999"]. repeat constructor.
  - apply (mergedCatalog_lookup_None false zeroTLSExtensions [] []). reflexivity.
  - reflexivity.
Qed.

(** C6, amended. When the fingerprint has five fields or more, its curve,
    point-format and version tokens are accepted, and [x] is the first
    extension id without an entry in the catalog, [StringToSpec] returns a
    nil plan and the extension error of [x], whose message names [x]. And
    whatever the input, a returned error comes with a nil plan. *)
Theorem unknown_extension_error m te ja3 ua f pre x post :
  splitJA3 ja3 = inl f ->
  Forall (tokenOK 16) (curves f) ->
  Forall (tokenOK 8) (pointFormats f) ->
  tokenOK 16 (version f) ->
  extensions f = pre ++ x :: post ->
  Forall (fun e => e ∈ catalogIDs) pre ->
  x ∉ catalogIDs ->
  StringToSpec m te ja3 ua =
    Return None (Some (ExtensionNotExistOf (raiseExtensionError x))) /\
  errExtensionNotExist_Error (raiseExtensionError x) =
    "Extension {{ " +:+ x +:+ " }} is not Supported by requests please raise an issue" /\
  forall m' te' ja3' ua' spec err,
    StringToSpec m' te' ja3' ua' = Return spec (Some err) -> spec = None.
Proof.
  intros Hf Hcv Hpf Hv Hes Hpre Hx. split; [|split; [reflexivity|]].
  - rewrite (StringToSpec_compile _ _ _ _ _ Hf). unfold compile.
    destruct (parseAll_inl 16 uint16 _ Hcv) as [curveIDs ->].
    destruct (parseAll_inl 8 byte _ Hpf) as [pointIDs ->].
    unfold tokenOK in Hv.
    destruct (GoStrconv.ParseUint (version f) 16) as [vid64 [e|]]; [done|].
    assert (Hl : lookupAll (mergedCatalog (greaseOn (parseUserAgent m ua) (receiverOrZero te))
                              (receiverOrZero te) curveIDs pointIDs) (extensions f) = inr x).
    { apply lookupAll_inr. exists pre, post. split; [done|]. split.
      - eapply Forall_impl; [exact Hpre|]. intros e He. by apply mergedCatalog_lookup_Some.
      - by apply mergedCatalog_lookup_None. }
    by rewrite Hl.
  - intros m' te' ja3' ua' spec err H.
    apply StringToSpec_plan_fields in H as (f' & _ & H).
    destruct (compile_returns (greaseOn (parseUserAgent m' ua') (receiverOrZero te'))
                (receiverOrZero te') f') as [[plan Hp]|[err' Hp]];
      rewrite Hp in H; by injection H.
Qed.

Lemma unknown_extension_error_witness :
  splitJA3 "771,4865,0-99999-10,29,0" =
    inl (mkJa3Fields "771" ["4865"] ["0"; "99999"; "10"] ["29"] ["0"]) /\
  StringToSpec idLower None "771,4865,0-99999-10,29,0" "Chrome" =
    Return None (Some (ExtensionNotExistOf (raiseExtensionError "99999"))) /\
  errExtensionNotExist_Error (raiseExtensionError "99999") =
    "Extension {{ 99999 }} is not Supported by requests please raise an issue".
Proof.
  split; [reflexivity|].
  assert (Hin : forall k, is_Some (mergedCatalog false zeroTLSExtensions [] [] !! k) ->
                          k ∈ catalogIDs).
  { intros k. apply mergedCatalog_lookup_Some. }
  assert (Hout : forall k, mergedCatalog false zeroTLSExtensions [] [] !! k = None ->
                           k ∉ catalogIDs).
  { intros k. apply mergedCatalog_lookup_None. }
  destruct (unknown_extension_error idLower None "771,4865,0-99999-10,29,0" "Chrome"
              (mkJa3Fields "771" ["4865"] ["0"; "99999"; "10"] ["29"] ["0"])
              ["0"] "99999" ["10"]) as (H1 & H2 & _).
  - reflexivity.
  - repeat constructor.
  - repeat constructor.
  - reflexivity.
  - reflexivity.
  - constructor; [|constructor]. apply Hin. vm_compute. eauto.
  - apply Hout. reflexivity.
  - split; [exact H1 | exact H2].
Defined.

(** C7, the claim as stated fails: a plan compiled for a firefox-like
    identity does contain the GREASE placeholder when the fingerprint itself
    lists it, here as the cipher 2570 and as the curve 2570. The compiler
    copies the values of the tokens as they are. *)
Lemma marker_free_compilations_counterexample :
  parseUserAgent idLower "Firefox" = firefox /\
  GoStrconv.ParseUint "2570" 16 = (GREASE_PLACEHOLDER, None) /\
  StringToSpec idLower None "771,2570,0-10,2570,0" "Firefox" =
  Return (Some {| CipherSuites := [GREASE_PLACEHOLDER];
                  CompressionMethods := [0];
                  Extensions := [SNIExtension;
                                 SupportedCurvesExtension [GREASE_PLACEHOLDER]];
                  TLSVersMin := 0; TLSVersMax := 0;
                  GetSessionID := Some sha256_Sum256 |}) None.
Proof. repeat split; reflexivity. Qed.

(** C7, amended. A firefox-like identity, whatever the flag, and a
    chrome-like identity with the flag set give the same outcome for the
    same fingerprint and overrides, and the compiler puts no randomization
    marker into a plan they return. The cipher suites are the numbers of
    the cipher tokens and nothing more. The extension sequence has no
    marker extension and is, id by id, the caller's override when there is
    one, and else: for "10" the numbers of the curve tokens and nothing
    more, for "11" those of the point-format tokens, for "51" the X25519
    and P-256 key shares, and for every other id, "43" included, the entry
    of [genMap] unchanged. So the GREASE placeholder is in the plan only
    where a cipher or curve token of the fingerprint has that number or
    where an override of the caller carries it: when neither does, the
    plan holds no GREASE placeholder anywhere, neither among the cipher
    suites nor in any extension. *)
Theorem marker_free_compilations m t b ja3 uaF uaC :
  parseUserAgent m uaF = firefox ->
  parseUserAgent m uaC = chrome ->
  StringToSpec m (Some (setNotUsedGREASE b t)) ja3 uaF =
  StringToSpec m (Some (setNotUsedGREASE true t)) ja3 uaC /\
  forall plan,
    StringToSpec m (Some (setNotUsedGREASE b t)) ja3 uaF = Return (Some plan) None ->
    exists f curveIDs pointIDs,
      splitJA3 ja3 = inl f /\
      Forall (fun x => isMarker x = false) (Extensions plan) /\
      length (Extensions plan) = length (extensions f) /\
      Forall2 (fun tok id => GoStrconv.ParseUint tok 16 = (id, None))
        (ciphers f) (CipherSuites plan) /\
      Forall2 (fun tok id => GoStrconv.ParseUint tok 16 = (id, None))
        (curves f) curveIDs /\
      Forall2 (fun tok id => GoStrconv.ParseUint tok 8 = (id, None))
        (pointFormats f) pointIDs /\
      Forall2 (markerFreeEntry t curveIDs pointIDs) (extensions f) (Extensions plan) /\
      ((forall k y, overrideEntry t k = Some y -> hasGREASE y = false) ->
       Forall (fun tok => fst (GoStrconv.ParseUint tok 16) <> GREASE_PLACEHOLDER)
         (ciphers f ++ curves f) ->
       (GREASE_PLACEHOLDER ∉ CipherSuites plan) /\
       Forall (fun x => hasGREASE x = false) (Extensions plan)).
Proof.
  intros HF HC. split.
  - destruct (splitJA3 ja3) as [f|o] eqn:Hf.
    + rewrite !(StringToSpec_compile _ _ _ _ _ Hf), HF, HC. cbn [receiverOrZero].
      rewrite greaseOn_firefox, (greaseOn_suppressed chrome) by reflexivity.
      by rewrite !compile_flag.
    + by rewrite !(StringToSpec_inr _ _ _ _ _ Hf).
  - intros plan Hplan. apply StringToSpec_plan_fields in Hplan as (f & Hf & Hplan).
    rewrite HF, greaseOn_firefox in Hplan. cbn [receiverOrZero] in Hplan.
    rewrite compile_flag in Hplan. unfold compile in Hplan.
    destruct (parseAll 16 uint16 (curves f)) as [curveIDs|] eqn:Hcv; [|done].
    destruct (parseAll 8 byte (pointFormats f)) as [pointIDs|] eqn:Hpf; [|done].
    destruct (GoStrconv.ParseUint (version f) 16) as [? [?|]]; [done|].
    destruct (lookupAll _ (extensions f)) as [tes|] eqn:Hl; [|done].
    destruct (parseAll 16 uint16 (ciphers f)) as [cipherIDs|] eqn:Hc; [|done].
    injection Hplan as <-. cbn [Extensions CipherSuites greasePrefix app].
    exists f, curveIDs, pointIDs. split; [done|].
    apply lookupAll_inl_inv in Hl.
    pose proof (Forall2_length _ _ _ Hl) as Hlen.
    unfold placeMarkers. cbn [andb app].
    rewrite app_nil_r, withFinalMarker_false by done.
    assert (Hentries : Forall2 (markerFreeEntry t curveIDs pointIDs) (extensions f) tes).
    { eapply Forall2_impl; [exact Hl|]. intros e x. apply mergedCatalog_markerFreeEntry. }
    split.
    { apply Forall_forall. intros x Hx.
      apply list_elem_of_lookup in Hx as [i Hi].
      destruct (Forall2_lookup_r _ _ _ _ _ Hl Hi) as (e & _ & He).
      by apply (mergedCatalog_noMarkers _ _ _ _ _ _ He). }
    split; [done|].
    split; [apply (parseAll_values 16 uint16); [lia | apply uint16_small | done]|].
    split; [apply (parseAll_values 16 uint16); [lia | apply uint16_small | done]|].
    split; [apply (parseAll_values 8 byte); [lia | intros n Hn; by apply Z.mod_small | done]|].
    split; [done|].
    intros Hov [Hciphers Hcurves]%Forall_app.
    apply (parseAll_values 16 uint16) in Hc; [|lia|apply uint16_small].
    apply (parseAll_values 16 uint16) in Hcv; [|lia|apply uint16_small].
    split; [by apply (values_absent (ciphers f))|].
    apply Forall_forall. intros x Hx.
    apply list_elem_of_lookup in Hx as [i Hi].
    destruct (Forall2_lookup_r _ _ _ _ _ Hentries Hi) as (e & _ & He).
    apply (markerFreeEntry_noGREASE t curveIDs pointIDs e); [done | | done].
    by apply (values_absent (curves f)).
Qed.

Lemma marker_free_compilations_witness :
  parseUserAgent idLower "Mozilla/5.0 Firefox/120.0" = firefox /\
  parseUserAgent idLower "Mozilla/5.0 Chrome/120.0" = chrome /\
  StringToSpec idLower (Some (setNotUsedGREASE false zeroTLSExtensions))
    "771,4865-4866,0-10-43-51,29,0" "Mozilla/5.0 Firefox/120.0" =
  StringToSpec idLower (Some (setNotUsedGREASE true zeroTLSExtensions))
    "771,4865-4866,0-10-43-51,29,0" "Mozilla/5.0 Chrome/120.0" /\
  StringToSpec idLower (Some (setNotUsedGREASE false zeroTLSExtensions))
    "771,4865-4866,0-10-43-51,29,0" "Mozilla/5.0 Firefox/120.0" =
  Return (Some {| CipherSuites := [4865; 4866];
                  CompressionMethods := [0];
                  Extensions := [SNIExtension;
                                 SupportedCurvesExtension [29];
                                 SupportedVersionsExtension [VersionTLS13; VersionTLS12];
                                 KeyShareExtension [mkKeyShare X25519 [];
                                                    mkKeyShare CurveP256 []]];
                  TLSVersMin := 0; TLSVersMax := 0;
                  GetSessionID := Some sha256_Sum256 |}) None /\
  (GREASE_PLACEHOLDER ∉ [4865; 4866]) /\
  Forall (fun x => hasGREASE x = false)
    [SNIExtension;
     SupportedCurvesExtension [29];
     SupportedVersionsExtension [VersionTLS13; VersionTLS12];
     KeyShareExtension [mkKeyShare X25519 []; mkKeyShare CurveP256 []]].
Proof.
  destruct (marker_free_compilations idLower zeroTLSExtensions false
              "771,4865-4866,0-10-43-51,29,0"
              "Mozilla/5.0 Firefox/120.0" "Mozilla/5.0 Chrome/120.0" eq_refl eq_refl)
    as [Heq Hplan].
  split; [reflexivity|]. split; [reflexivity|]. split; [exact Heq|].
  split; [reflexivity|].
  destruct (Hplan _ eq_refl)
    as (f & curveIDs & pointIDs & Hf & _ & _ & _ & _ & _ & _ & Hfree).
  injection Hf as <-. cbn [curves ciphers app] in Hfree.
  apply Hfree.
  - intros k y Hk. unfold overrideEntry in Hk. cbn [SupportedSignatureAlgorithms
      CertCompressionAlgo RecordSizeLimit DelegatedCredentials SupportedVersions
      PSKKeyExchangeModes SignatureAlgorithmsCert KeyShareCurves zeroTLSExtensions
      fmap option_fmap option_map] in Hk.
    repeat case_match; discriminate.
  - repeat constructor; discriminate.
Defined.

(** C8. The fingerprint "771,4865-4866,0-10-11,29-23-24,0", compiled for a
    chrome-like identity with randomization not suppressed, whatever the
    overrides: the ciphers are GREASE, 4865, 4866; extension "10" holds the
    curves GREASE, 29, 23, 24; the extension sequence is a marker, SNI,
    SupportedCurves, SupportedPoints and one trailing marker. *)
Theorem chrome_example_plan m te ua :
  parseUserAgent m ua = chrome ->
  NotUsedGREASE (receiverOrZero te) = false ->
  StringToSpec m te "771,4865-4866,0-10-11,29-23-24,0" ua =
  Return (Some {| CipherSuites := [GREASE_PLACEHOLDER; 4865; 4866];
                  CompressionMethods := [0];
                  Extensions := [UtlsGREASEExtension;
                                 SNIExtension;
                                 SupportedCurvesExtension [GREASE_PLACEHOLDER; 29; 23; 24];
                                 SupportedPointsExtension [0];
                                 UtlsGREASEExtension];
                  TLSVersMin := 0; TLSVersMax := 0;
                  GetSessionID := Some sha256_Sum256 |}) None.
Proof.
  intros Hua Hflag.
  rewrite (StringToSpec_compile m te _ ua
             (mkJa3Fields "771" ["4865"; "4866"] ["0"; "10"; "11"] ["29"; "23"; "24"] ["0"]))
    by reflexivity.
  unfold greaseOn. rewrite Hua, Hflag. change (String.eqb chrome chrome && negb false) with true.
  unfold compile. cbn [curves pointFormats version extensions ciphers].
  change (parseAll 16 uint16 ["29"; "23"; "24"]) with (inl [29; 23; 24] : list Z + GoStrconv.NumError).
  change (parseAll 8 byte ["0"]) with (inl [0] : list Z + GoStrconv.NumError).
  change (GoStrconv.ParseUint "771" 16) with (771, @None GoStrconv.NumError).
  change (parseAll 16 uint16 ["4865"; "4866"]) with (inl [4865; 4866] : list Z + GoStrconv.NumError).
  cbv iota beta.
  unfold mergedCatalog. cbn [lookupAll].
  rewrite !applyOverrides_lookup_ne
    by (intros H; repeat (apply elem_of_cons in H as [[=]|H]); by apply elem_of_nil in H).
  reflexivity.
Qed.

Lemma chrome_example_plan_witness :
  parseUserAgent idLower "Mozilla/5.0 Chrome/120.0" = chrome /\
  NotUsedGREASE (receiverOrZero None) = false /\
  StringToSpec idLower None "771,4865-4866,0-10-11,29-23-24,0" "Mozilla/5.0 Chrome/120.0" =
  Return (Some {| CipherSuites := [GREASE_PLACEHOLDER; 4865; 4866];
                  CompressionMethods := [0];
                  Extensions := [UtlsGREASEExtension;
                                 SNIExtension;
                                 SupportedCurvesExtension [GREASE_PLACEHOLDER; 29; 23; 24];
                                 SupportedPointsExtension [0];
                                 UtlsGREASEExtension];
                  TLSVersMin := 0; TLSVersMax := 0;
                  GetSessionID := Some sha256_Sum256 |}) None.
Proof.
  split; [reflexivity|]. split; [reflexivity|].
  apply chrome_example_plan; reflexivity.
Defined.

(** C9. A call on a nil receiver runs as a call on a pointer to the zero
    value of [TLSExtensions]: the outcome is the same, the override block
    leaves the catalog as it is, no nil pointer is dereferenced, and for a
    chrome-like identity (the flag being false) a returned plan starts with
    a marker extension and with the GREASE cipher value. *)
Theorem nil_receiver_is_zero_value m ja3 ua :
  StringToSpec m None ja3 ua = StringToSpec m (Some zeroTLSExtensions) ja3 ua /\
  NotUsedGREASE zeroTLSExtensions = false /\
  (forall extMap,
     customExtensions (Some zeroTLSExtensions) (Some zeroTLSExtensions) extMap = inl extMap) /\
  StringToSpec m None ja3 ua <> Panic NilPointerDereference /\
  (parseUserAgent m ua = chrome ->
   forall plan, StringToSpec m None ja3 ua = Return (Some plan) None ->
   exists exts suites,
     Extensions plan = UtlsGREASEExtension :: exts /\
     CipherSuites plan = GREASE_PLACEHOLDER :: suites).
Proof.
  split; [reflexivity|]. split; [reflexivity|]. split; [reflexivity|].
  split; [apply StringToSpec_no_nil_dereference|].
  intros Hua plan Hplan.
  apply StringToSpec_plan_fields in Hplan as (f & Hf & Hplan).
  rewrite Hua in Hplan.
  change (greaseOn chrome (receiverOrZero None)) with true in Hplan.
  unfold compile in Hplan.
  repeat case_match; try discriminate.
  injection Hplan as <-. cbn [Extensions CipherSuites placeMarkers greasePrefix app]. eauto.
Qed.

Lemma nil_receiver_is_zero_value_witness :
  parseUserAgent idLower "Chrome" = chrome /\
  StringToSpec idLower None "771,4865,0,," "Chrome" =
    Return (Some {| CipherSuites := [GREASE_PLACEHOLDER; 4865];
                    CompressionMethods := [0];
                    Extensions := [UtlsGREASEExtension; SNIExtension; UtlsGREASEExtension];
                    TLSVersMin := 0; TLSVersMax := 0;
                    GetSessionID := Some sha256_Sum256 |}) None /\
  exists exts suites,
    [UtlsGREASEExtension; SNIExtension; UtlsGREASEExtension] = UtlsGREASEExtension :: exts /\
    [GREASE_PLACEHOLDER; 4865] = GREASE_PLACEHOLDER :: suites.
Proof.
  split; [reflexivity|]. split; [reflexivity|].
  destruct (nil_receiver_is_zero_value idLower "771,4865,0,," "Chrome") as (_ & _ & _ & _ & H).
  exact (H eq_refl
           {| CipherSuites := [GREASE_PLACEHOLDER; 4865];
              CompressionMethods := [0];
              Extensions := [UtlsGREASEExtension; SNIExtension; UtlsGREASEExtension];
              TLSVersMin := 0; TLSVersMax := 0;
              GetSessionID := Some sha256_Sum256 |} eq_refl).
Defined.

(** C10. An identity string that contains a chrome-like marker ("chrome" or
    "applewebkit", after lowering the case) and also "firefox" (as it is or
    after lowering the case) is classified chrome-like: the two chrome cases
    of the switch come before the firefox case. *)
Theorem parseUserAgent_chrome_before_firefox m ua :
  GoStrings.Contains (ToLower m ua) "chrome" = true \/
  GoStrings.Contains (ToLower m ua) "applewebkit" = true ->
  GoStrings.Contains ua "firefox" = true \/
  GoStrings.Contains (ToLower m ua) "firefox" = true ->
  parseUserAgent m ua = chrome.
Proof.
  intros Hc _. unfold parseUserAgent.
  destruct (GoStrings.Contains (ToLower m ua) "chrome"); [done|].
  destruct Hc as [Hc|Hc]; [done|]. by rewrite Hc.
Qed.

Lemma parseUserAgent_chrome_before_firefox_witness :
  GoStrings.Contains
    (ToLower idLower "Mozilla/5.0 (X11) AppleWebKit/537.36 Firefox/120.0") "applewebkit" = true /\
  GoStrings.Contains
    (ToLower idLower "Mozilla/5.0 (X11) AppleWebKit/537.36 Firefox/120.0") "firefox" = true /\
  parseUserAgent idLower "Mozilla/5.0 (X11) AppleWebKit/537.36 Firefox/120.0" = chrome.
Proof.
  split; [reflexivity|]. split; [reflexivity|].
  apply parseUserAgent_chrome_before_firefox; [right|right]; reflexivity.
Defined.

(** ** Further properties of the compiler *)

(** *** How a call ends *)

Lemma numericTokens_Forall f :
  Forall (fun '(tok, bitSize) => tokenOK bitSize tok) (numericTokens f) <->
  Forall (tokenOK 16) (curves f) /\ Forall (tokenOK 8) (pointFormats f) /\
  tokenOK 16 (version f) /\ Forall (tokenOK 16) (ciphers f).
Proof.
  unfold numericTokens. rewrite !Forall_app, !Forall_fmap, Forall_singleton. tauto.
Qed.

(** X1. [StringToSpec] panics exactly on the fingerprints with fewer than
    five fields, and then on the slice access just past the last field.
    With five fields or more every slice access is in range, the one of
    line 172 included: the extension list of a split is never empty. *)
Theorem StringToSpec_panics_iff_short m te ja3 ua p :
  StringToSpec m te ja3 ua = Panic p <->
  len (GoStrings.Split ja3 ",") < 5 /\
  p = IndexOutOfRange (len (GoStrings.Split ja3 ",")) (len (GoStrings.Split ja3 ",")).
Proof.
  destruct (StringToSpec_cases m te ja3 ua) as [[Hlt ->]|(f & Hf & ->)].
  - split; [intros [= <-]; done | intros [_ ->]; done].
  - split.
    + destruct (compile_returns (greaseOn (parseUserAgent m ua) (receiverOrZero te))
                  (receiverOrZero te) f) as [[plan ->]|[err ->]]; done.
    + intros [Hlt _]. rewrite (splitJA3_short ja3 Hlt) in Hf. discriminate.
Qed.

Lemma StringToSpec_panics_iff_short_witness :
  StringToSpec idLower None "771" "Firefox" = Panic (IndexOutOfRange 1 1).
Proof.
  apply (proj2 (StringToSpec_panics_iff_short idLower None "771" "Firefox"
                  (IndexOutOfRange 1 1))).
  split; reflexivity.
Defined.

(** X2. [StringToSpec] returns a plan exactly when the fingerprint has five
    fields or more, [ParseUint] accepts every curve, point-format, version
    and cipher token at the bit size of its field, and every extension id
    is one of the catalog ids. *)
Theorem StringToSpec_plan_iff m te ja3 ua :
  (exists plan, StringToSpec m te ja3 ua = Return (Some plan) None) <->
  exists f,
    splitJA3 ja3 = inl f /\
    Forall (fun '(tok, bitSize) => tokenOK bitSize tok) (numericTokens f) /\
    Forall (fun e => e ∈ catalogIDs) (extensions f).
Proof.
  split.
  - intros [plan Hplan]. apply StringToSpec_plan_fields in Hplan as (f & Hf & Hplan).
    exists f. split; [done|]. rewrite numericTokens_Forall.
    unfold compile in Hplan.
    destruct (parseAll 16 uint16 (curves f)) as [curveIDs|] eqn:Hcv; [|done].
    destruct (parseAll 8 byte (pointFormats f)) as [pointIDs|] eqn:Hpf; [|done].
    destruct (GoStrconv.ParseUint (version f) 16) as [? [?|]] eqn:Hv; [done|].
    destruct (lookupAll _ (extensions f)) as [tes|] eqn:Hl; [|done].
    destruct (parseAll 16 uint16 (ciphers f)) as [cipherIDs|] eqn:Hc; [|done].
    repeat split; try by eapply parseAll_inl_Forall.
    + unfold tokenOK. by rewrite Hv.
    + apply lookupAll_inl_inv in Hl. apply Forall_forall. intros e He.
      apply list_elem_of_lookup in He as [i Hi].
      destruct (Forall2_lookup_l _ _ _ _ _ Hl Hi) as (te' & _ & Hte).
      eapply mergedCatalog_lookup_Some. by rewrite Hte.
  - intros (f & Hf & Hnum & Hext). apply numericTokens_Forall in Hnum as (Hcv & Hpf & Hv & Hc).
    rewrite (StringToSpec_compile _ _ _ _ _ Hf). unfold compile.
    destruct (parseAll_inl 16 uint16 _ Hcv) as [curveIDs ->].
    destruct (parseAll_inl 8 byte _ Hpf) as [pointIDs ->].
    unfold tokenOK in Hv.
    destruct (GoStrconv.ParseUint (version f) 16) as [vid64 [e|]]; [done|].
    destruct (lookupAll_inl
                (mergedCatalog (greaseOn (parseUserAgent m ua) (receiverOrZero te))
                   (receiverOrZero te) curveIDs pointIDs) (extensions f)) as [tes ->].
    { eapply Forall_impl; [exact Hext|]. intros e He. by apply mergedCatalog_lookup_Some. }
    destruct (parseAll_inl 16 uint16 _ Hc) as [cipherIDs ->]. eauto.
Qed.

Lemma StringToSpec_plan_iff_witness :
  exists plan, StringToSpec idLower None "771,4865,0-23-65281,29,0" "Firefox" =
               Return (Some plan) None.
Proof.
  assert (Hin : forall k, is_Some (mergedCatalog false zeroTLSExtensions [] [] !! k) ->
                          k ∈ catalogIDs).
  { intros k. apply mergedCatalog_lookup_Some. }
  apply (proj2 (StringToSpec_plan_iff idLower None "771,4865,0-23-65281,29,0" "Firefox")).
  exists (mkJa3Fields "771" ["4865"] ["0"; "23"; "65281"] ["29"] ["0"]).
  split; [reflexivity|]. split.
  - repeat constructor.
  - repeat constructor; apply Hin; vm_compute; eauto.
Defined.

(** X3. A call that returns gives back exactly one of its two results: a
    plan with a nil error, or a nil plan with an error. A returned plan
    always has the one compression method 0, the session-id function
    [sha256.Sum256], and both version bounds unset. *)
Theorem StringToSpec_results m te ja3 ua spec err :
  StringToSpec m te ja3 ua = Return spec err ->
  (spec = None /\ is_Some err) \/
  (err = None /\
   exists plan,
     spec = Some plan /\
     CompressionMethods plan = [0] /\
     GetSessionID plan = Some sha256_Sum256 /\
     TLSVersMin plan = 0 /\ TLSVersMax plan = 0).
Proof.
  intros H. apply StringToSpec_plan_fields in H as (f & _ & H).
  unfold compile in H.
  repeat case_match; injection H as <- <-; eauto 10.
Qed.

Lemma StringToSpec_results_witness :
  StringToSpec idLower None "771,4865,12,29,0" "Firefox" =
    Return None (Some (ExtensionNotExistOf (raiseExtensionError "12"))) /\
  ((@None ClientHelloSpec = None /\
   is_Some (Some (ExtensionNotExistOf (raiseExtensionError "12")))) \/
  (Some (ExtensionNotExistOf (raiseExtensionError "12")) = None /\
   exists plan,
     None = Some plan /\
     CompressionMethods plan = [0] /\
     GetSessionID plan = Some sha256_Sum256 /\
     TLSVersMin plan = 0 /\ TLSVersMax plan = 0)).
Proof.
  split; [reflexivity|].
  exact (StringToSpec_results idLower None "771,4865,12,29,0" "Firefox" _ _ eq_refl).
Defined.

(** X4. The version token is checked and then dropped, and fields after
    the fifth are never read: two fingerprints with the same cipher,
    extension, curve and point-format fields, each with an accepted
    version, have the same outcome. *)
Theorem version_and_extra_fields_ignored m te ua ja3 ja3' v v' cf ef cvf pff rest rest' :
  GoStrings.Split ja3 "," = v :: cf :: ef :: cvf :: pff :: rest ->
  GoStrings.Split ja3' "," = v' :: cf :: ef :: cvf :: pff :: rest' ->
  tokenOK 16 v -> tokenOK 16 v' ->
  StringToSpec m te ja3 ua = StringToSpec m te ja3' ua.
Proof.
  intros H H' Hv Hv'.
  rewrite (StringToSpec_compile _ _ _ _ _ (splitJA3_fields _ _ _ _ _ _ _ H)).
  rewrite (StringToSpec_compile _ _ _ _ _ (splitJA3_fields _ _ _ _ _ _ _ H')).
  unfold compile, tokenOK in *. cbn [curves pointFormats version extensions ciphers].
  destruct (GoStrconv.ParseUint v 16) as [? [?|]]; [done|].
  destruct (GoStrconv.ParseUint v' 16) as [? [?|]]; [done|].
  reflexivity.
Qed.

Lemma version_and_extra_fields_ignored_witness :
  StringToSpec idLower None "771,4865,0-43,29,0" "Chrome" =
  StringToSpec idLower None "65535,4865,0-43,29,0,x,y" "Chrome".
Proof.
  apply (version_and_extra_fields_ignored idLower None "Chrome"
           "771,4865,0-43,29,0" "65535,4865,0-43,29,0,x,y"
           "771" "65535" "4865" "0-43" "29" "0" [] ["x"; "y"]); reflexivity.
Defined.

(** X5. The cipher suites of a returned plan are the numbers of the cipher
    tokens, in the order of the fingerprint and each below 2^16, after the
    GREASE placeholder for a chrome-like identity with randomization not
    suppressed and after nothing otherwise. *)
Theorem cipher_suites_of_plan m te ja3 ua plan :
  StringToSpec m te ja3 ua = Return (Some plan) None ->
  exists f ids,
    splitJA3 ja3 = inl f /\
    Forall2 (fun tok id => GoStrconv.ParseUint tok 16 = (id, None)) (ciphers f) ids /\
    Forall (fun id => 0 <= id < 2 ^ 16) ids /\
    CipherSuites plan =
      (if greaseOn (parseUserAgent m ua) (receiverOrZero te)
       then GREASE_PLACEHOLDER :: ids else ids).
Proof.
  intros Hplan. apply StringToSpec_plan_fields in Hplan as (f & Hf & Hplan).
  unfold compile in Hplan.
  destruct (parseAll 16 uint16 (curves f)) as [curveIDs|]; [|done].
  destruct (parseAll 8 byte (pointFormats f)) as [pointIDs|]; [|done].
  destruct (GoStrconv.ParseUint (version f) 16) as [? [?|]]; [done|].
  destruct (lookupAll _ (extensions f)) as [tes|]; [|done].
  destruct (parseAll 16 uint16 (ciphers f)) as [cipherIDs|] eqn:Hc; [|done].
  injection Hplan as <-. cbn [CipherSuites].
  apply (parseAll_values 16 uint16) in Hc; [|lia|apply uint16_small].
  exists f, cipherIDs. split; [done|]. split; [done|]. split.
  - apply Forall_forall. intros id Hid.
    apply list_elem_of_lookup in Hid as [i Hi].
    destruct (Forall2_lookup_r _ _ _ _ _ Hc Hi) as (tok & _ & Htok).
    by apply (ParseUint_range tok 16).
  - unfold greasePrefix. by destruct (greaseOn _ _).
Qed.

Lemma cipher_suites_of_plan_witness :
  StringToSpec idLower None "771,4865-49195-255,0,29,0" "Chrome" =
  Return (Some {| CipherSuites := [GREASE_PLACEHOLDER; 4865; 49195; 255];
                  CompressionMethods := [0];
                  Extensions := [UtlsGREASEExtension; SNIExtension; UtlsGREASEExtension];
                  TLSVersMin := 0; TLSVersMax := 0;
                  GetSessionID := Some sha256_Sum256 |}) None /\
  exists f ids,
    splitJA3 "771,4865-49195-255,0,29,0" = inl f /\
    Forall2 (fun tok id => GoStrconv.ParseUint tok 16 = (id, None)) (ciphers f) ids /\
    Forall (fun id => 0 <= id < 2 ^ 16) ids /\
    [GREASE_PLACEHOLDER; 4865; 49195; 255] = GREASE_PLACEHOLDER :: ids.
Proof.
  split; [reflexivity|].
  exact (cipher_suites_of_plan idLower None "771,4865-49195-255,0,29,0" "Chrome"
           {| CipherSuites := [GREASE_PLACEHOLDER; 4865; 49195; 255];
              CompressionMethods := [0];
              Extensions := [UtlsGREASEExtension; SNIExtension; UtlsGREASEExtension];
              TLSVersMin := 0; TLSVersMax := 0;
              GetSessionID := Some sha256_Sum256 |} eq_refl).
Defined.

(** *** The entries of the plan *)

Lemma filter_all {A} (P : A -> Prop) `{forall x, Decision (P x)} (l : list A) :
  Forall P l -> filter P l = l.
Proof.
  induction 1 as [|x l Hx _ IH]; [done|].
  rewrite filter_cons_True by done. by rewrite IH.
Qed.

Lemma placeMarkers_filter g es tes :
  length tes = length es ->
  Forall (fun te => isMarker te = false) tes ->
  filter (fun te => isMarker te = false) (placeMarkers g es tes) = tes.
Proof.
  intros Hlen Hno. unfold placeMarkers.
  assert (Hm : forall b : bool,
            filter (fun te => isMarker te = false)
              (if b then [UtlsGREASEExtension] else []) = []) by (by intros []).
  rewrite !filter_app, !Hm, app_nil_r. cbn [app].
  destruct es as [|e0 es0] using rev_ind.
  { destruct tes; [done | done]. }
  clear IHes0.
  destruct tes as [|t0 ts0] using rev_ind.
  { rewrite length_app in Hlen. cbn [length] in Hlen. lia. }
  clear IHts0. rewrite !length_app in Hlen. cbn [length] in Hlen.
  rewrite withFinalMarker_snoc by lia.
  rewrite !filter_app, Hm. cbn [app]. rewrite <- filter_app. by apply filter_all.
Qed.

Lemma lookupAll_noMarkers extMap es tes :
  noMarkers extMap -> lookupAll extMap es = inl tes ->
  Forall (fun te => isMarker te = false) tes.
Proof.
  intros Hm Hl. apply lookupAll_inl_inv in Hl. apply Forall_forall. intros x Hx.
  apply list_elem_of_lookup in Hx as [i Hi].
  destruct (Forall2_lookup_r _ _ _ _ _ Hl Hi) as (e & _ & He).
  by apply (Hm _ _ He).
Qed.

(** X6. The order of the extension ids is the order of the plan: without
    its markers, the extension sequence of a returned plan is, id by id,
    the entry of the id in the catalog that the blocks "parse curves",
    "parse point formats" and "custom tls extensions" make of [genMap], run
    in this order. An id that occurs twice gets its entry twice. *)
Theorem extension_entries_in_order m te ja3 ua plan :
  StringToSpec m te ja3 ua = Return (Some plan) None ->
  exists f extMap1 extMap2 extMap3,
    splitJA3 ja3 = inl f /\
    parseCurves (parseUserAgent m ua) (Some (receiverOrZero te)) genMap (curves f)
      = inl extMap1 /\
    parsePointFormats extMap1 (pointFormats f) = inl extMap2 /\
    customExtensions (Some (receiverOrZero te)) (Some (receiverOrZero te)) extMap2
      = inl extMap3 /\
    Forall2 (fun e x => extMap3 !! e = Some x)
      (extensions f)
      (filter (fun x => isMarker x = false) (Extensions plan)).
Proof.
  intros Hplan. apply StringToSpec_plan_fields in Hplan as (f & Hf & Hplan).
  unfold compile in Hplan.
  destruct (parseAll 16 uint16 (curves f)) as [curveIDs|] eqn:Hcv; [|done].
  destruct (parseAll 8 byte (pointFormats f)) as [pointIDs|] eqn:Hpf; [|done].
  destruct (GoStrconv.ParseUint (version f) 16) as [? [?|]]; [done|].
  destruct (lookupAll _ (extensions f)) as [tes|] eqn:Hl; [|done].
  destruct (parseAll 16 uint16 (ciphers f)) as [cipherIDs|]; [|done].
  injection Hplan as <-. cbn [Extensions].
  eexists f, _, _, _. split; [done|].
  split; [by rewrite parseCurves_parseAll, Hcv|].
  split; [by rewrite parsePointFormats_parseAll, Hpf|].
  split; [reflexivity|].
  rewrite placeMarkers_filter.
  - by apply lookupAll_inl_inv.
  - symmetry. eapply Forall2_length, lookupAll_inl_inv, Hl.
  - eapply lookupAll_noMarkers; [apply mergedCatalog_noMarkers | exact Hl].
Qed.

Lemma extension_entries_in_order_witness :
  StringToSpec idLower None "771,4865,0-11-0-21,29,0-1" "Chrome" =
  Return (Some {| CipherSuites := [GREASE_PLACEHOLDER; 4865];
                  CompressionMethods := [0];
                  Extensions := [UtlsGREASEExtension; SNIExtension;
                                 SupportedPointsExtension [0; 1]; SNIExtension;
                                 UtlsGREASEExtension;
                                 UtlsPaddingExtension BoringPaddingStyle];
                  TLSVersMin := 0; TLSVersMax := 0;
                  GetSessionID := Some sha256_Sum256 |}) None /\
  exists f extMap1 extMap2 extMap3,
    splitJA3 "771,4865,0-11-0-21,29,0-1" = inl f /\
    parseCurves chrome (Some zeroTLSExtensions) genMap (curves f) = inl extMap1 /\
    parsePointFormats extMap1 (pointFormats f) = inl extMap2 /\
    customExtensions (Some zeroTLSExtensions) (Some zeroTLSExtensions) extMap2
      = inl extMap3 /\
    Forall2 (fun e x => extMap3 !! e = Some x)
      (extensions f)
      [SNIExtension; SupportedPointsExtension [0; 1]; SNIExtension;
       UtlsPaddingExtension BoringPaddingStyle].
Proof.
  split; [reflexivity|].
  exact (extension_entries_in_order idLower None "771,4865,0-11-0-21,29,0-1" "Chrome"
           {| CipherSuites := [GREASE_PLACEHOLDER; 4865];
              CompressionMethods := [0];
              Extensions := [UtlsGREASEExtension; SNIExtension;
                             SupportedPointsExtension [0; 1]; SNIExtension;
                             UtlsGREASEExtension; UtlsPaddingExtension BoringPaddingStyle];
              TLSVersMin := 0; TLSVersMax := 0;
              GetSessionID := Some sha256_Sum256 |} eq_refl).
Defined.

(** X7. The block "custom tls extensions", on any catalog: a non-nil
    override replaces the entry of its id as a whole (or creates it), a nil
    override leaves the entry of its id as it is, and the ids other than
    the eight overridable ones keep their entries. *)
Theorem override_merge t extMap :
  exists extMap',
    customExtensions (Some t) (Some t) extMap = inl extMap' /\
    forall k,
      extMap' !! k =
      match overrideEntry t k with
      | Some x => Some x
      | None => extMap !! k
      end.
Proof.
  exists (applyOverrides t extMap). split; [reflexivity|].
  intros k. apply applyOverrides_lookup.
Qed.

Lemma plan_entry m te ja3 ua plan f curveIDs pointIDs k x :
  splitJA3 ja3 = inl f ->
  StringToSpec m te ja3 ua = Return (Some plan) None ->
  parseAll 16 uint16 (curves f) = inl curveIDs ->
  parseAll 8 byte (pointFormats f) = inl pointIDs ->
  k ∈ extensions f ->
  mergedCatalog (greaseOn (parseUserAgent m ua) (receiverOrZero te))
    (receiverOrZero te) curveIDs pointIDs !! k = Some x ->
  x ∈ Extensions plan.
Proof.
  intros Hf Hplan Hcv Hpf Hk Hx.
  rewrite (StringToSpec_compile _ _ _ _ _ Hf) in Hplan.
  unfold compile in Hplan. rewrite Hcv, Hpf in Hplan.
  destruct (GoStrconv.ParseUint (version f) 16) as [? [?|]]; [done|].
  destruct (lookupAll _ (extensions f)) as [tes|] eqn:Hl; [|done].
  destruct (parseAll 16 uint16 (ciphers f)) as [cipherIDs|]; [|done].
  injection Hplan as <-. cbn [Extensions].
  apply placeMarkers_elem.
  - symmetry. eapply Forall2_length, lookupAll_inl_inv, Hl.
  - by apply (lookupAll_elem _ _ _ k _ Hl).
Qed.

Lemma plan_curves_points m te ja3 ua plan f :
  splitJA3 ja3 = inl f ->
  StringToSpec m te ja3 ua = Return (Some plan) None ->
  exists curveIDs pointIDs,
    parseAll 16 uint16 (curves f) = inl curveIDs /\
    parseAll 8 byte (pointFormats f) = inl pointIDs.
Proof.
  intros Hf Hplan. rewrite (StringToSpec_compile _ _ _ _ _ Hf) in Hplan.
  unfold compile in Hplan.
  destruct (parseAll 16 uint16 (curves f)) as [curveIDs|]; [|done].
  destruct (parseAll 8 byte (pointFormats f)) as [pointIDs|]; [|done]. eauto.
Qed.

(** X8. An override reaches the plan as it was given: when the caller
    supplies an override for an id and the fingerprint lists that id, the
    returned plan contains the caller's extension. This holds for "43" and
    "51" as well, whose catalog defaults the curve block has changed by
    then: the override is stored after that block and is not touched. *)
Theorem override_in_plan m te ja3 ua plan f k x :
  splitJA3 ja3 = inl f ->
  StringToSpec m te ja3 ua = Return (Some plan) None ->
  overrideEntry (receiverOrZero te) k = Some x ->
  k ∈ extensions f ->
  x ∈ Extensions plan.
Proof.
  intros Hf Hplan Hov Hk.
  destruct (plan_curves_points _ _ _ _ _ _ Hf Hplan) as (curveIDs & pointIDs & Hcv & Hpf).
  apply (plan_entry _ _ _ _ _ _ _ _ k _ Hf Hplan Hcv Hpf Hk).
  unfold mergedCatalog. by rewrite applyOverrides_lookup, Hov.
Qed.

Lemma override_in_plan_witness :
  StringToSpec idLower
    (Some (mkTLSExtensions None None None None (Some [VersionTLS13]) None None None
             false EmptyString))
    "771,4865,0-43,29,0" "Chrome" =
  Return (Some {| CipherSuites := [GREASE_PLACEHOLDER; 4865];
                  CompressionMethods := [0];
                  Extensions := [UtlsGREASEExtension; SNIExtension;
                                 SupportedVersionsExtension [VersionTLS13];
                                 UtlsGREASEExtension];
                  TLSVersMin := 0; TLSVersMax := 0;
                  GetSessionID := Some sha256_Sum256 |}) None /\
  (SupportedVersionsExtension [VersionTLS13] ∈
   [UtlsGREASEExtension; SNIExtension; SupportedVersionsExtension [VersionTLS13];
    UtlsGREASEExtension]).
Proof.
  split; [reflexivity|].
  exact (override_in_plan idLower
           (Some (mkTLSExtensions None None None None (Some [VersionTLS13]) None None None
                    false EmptyString))
           "771,4865,0-43,29,0" "Chrome"
           {| CipherSuites := [GREASE_PLACEHOLDER; 4865];
              CompressionMethods := [0];
              Extensions := [UtlsGREASEExtension; SNIExtension;
                             SupportedVersionsExtension [VersionTLS13];
                             UtlsGREASEExtension];
              TLSVersMin := 0; TLSVersMax := 0;
              GetSessionID := Some sha256_Sum256 |}
           (mkJa3Fields "771" ["4865"] ["0"; "43"] ["29"] ["0"])
           "43" (SupportedVersionsExtension [VersionTLS13])
           eq_refl eq_refl eq_refl
           (list_elem_of_further _ _ _ (list_elem_of_here _ _))).
Defined.

(** X9. Without an override, the supported-versions entry "43" and the
    key-share entry "51" of a returned plan are the catalog defaults as the
    curve block leaves them. For a chrome-like identity with randomization
    not suppressed: GREASE, TLS 1.3, TLS 1.2, and a GREASE key share with
    data byte 0 before the X25519 share. Otherwise: TLS 1.3, TLS 1.2, and
    the X25519 share followed by a P-256 share. *)
Theorem default_versions_and_key_shares m te ja3 ua plan f :
  splitJA3 ja3 = inl f ->
  StringToSpec m te ja3 ua = Return (Some plan) None ->
  (SupportedVersions (receiverOrZero te) = None -> ("43" ∈ extensions f) ->
   SupportedVersionsExtension
     (if greaseOn (parseUserAgent m ua) (receiverOrZero te)
      then [GREASE_PLACEHOLDER; VersionTLS13; VersionTLS12]
      else [VersionTLS13; VersionTLS12]) ∈ Extensions plan) /\
  (KeyShareCurves (receiverOrZero te) = None -> ("51" ∈ extensions f) ->
   KeyShareExtension
     (if greaseOn (parseUserAgent m ua) (receiverOrZero te)
      then [mkKeyShare GREASE_PLACEHOLDER [0]; mkKeyShare X25519 []]
      else [mkKeyShare X25519 []; mkKeyShare CurveP256 []]) ∈ Extensions plan).
Proof.
  intros Hf Hplan.
  destruct (plan_curves_points _ _ _ _ _ _ Hf Hplan) as (curveIDs & pointIDs & Hcv & Hpf).
  split; intros Hnone Hk.
  - apply (plan_entry _ _ _ _ _ _ _ _ "43" _ Hf Hplan Hcv Hpf Hk).
    unfold mergedCatalog. rewrite applyOverrides_lookup.
    unfold overrideEntry. cbn [String.eqb Ascii.eqb Bool.eqb]. rewrite Hnone. cbn [fmap option_fmap option_map].
    rewrite !lookup_insert_ne by done.
    by destruct (greaseOn _ _).
  - apply (plan_entry _ _ _ _ _ _ _ _ "51" _ Hf Hplan Hcv Hpf Hk).
    unfold mergedCatalog. rewrite applyOverrides_lookup.
    unfold overrideEntry. cbn [String.eqb Ascii.eqb Bool.eqb]. rewrite Hnone. cbn [fmap option_fmap option_map].
    rewrite !lookup_insert_ne by done.
    by destruct (greaseOn _ _).
Qed.

Lemma default_versions_and_key_shares_witness :
  StringToSpec idLower None "771,4865,43-51,29,0" "Firefox" =
  Return (Some {| CipherSuites := [4865];
                  CompressionMethods := [0];
                  Extensions := [SupportedVersionsExtension [VersionTLS13; VersionTLS12];
                                 KeyShareExtension [mkKeyShare X25519 [];
                                                    mkKeyShare CurveP256 []]];
                  TLSVersMin := 0; TLSVersMax := 0;
                  GetSessionID := Some sha256_Sum256 |}) None /\
  (SupportedVersionsExtension [VersionTLS13; VersionTLS12] ∈
   [SupportedVersionsExtension [VersionTLS13; VersionTLS12];
    KeyShareExtension [mkKeyShare X25519 []; mkKeyShare CurveP256 []]]) /\
  (KeyShareExtension [mkKeyShare X25519 []; mkKeyShare CurveP256 []] ∈
   [SupportedVersionsExtension [VersionTLS13; VersionTLS12];
    KeyShareExtension [mkKeyShare X25519 []; mkKeyShare CurveP256 []]]).
Proof.
  split; [reflexivity|].
  destruct (default_versions_and_key_shares idLower None "771,4865,43-51,29,0" "Firefox"
              {| CipherSuites := [4865];
                 CompressionMethods := [0];
                 Extensions := [SupportedVersionsExtension [VersionTLS13; VersionTLS12];
                                KeyShareExtension [mkKeyShare X25519 [];
                                                   mkKeyShare CurveP256 []]];
                 TLSVersMin := 0; TLSVersMax := 0;
                 GetSessionID := Some sha256_Sum256 |}
              (mkJa3Fields "771" ["4865"] ["43"; "51"] ["29"] ["0"]) eq_refl eq_refl)
    as [H43 H51].
  split.
  - apply H43; [reflexivity | repeat constructor].
  - apply H51; [reflexivity | repeat constructor].
Defined.

(** *** Point formats and the order of the checks *)

Lemma parseAll_first_error bitSize conv pre tok post r e :
  Forall (tokenOK bitSize) pre ->
  GoStrconv.ParseUint tok bitSize = (r, Some e) ->
  parseAll bitSize conv (pre ++ tok :: post) = inr e.
Proof.
  intros Hpre Htok. induction Hpre as [|c pre Hc _ IH]; simpl.
  - by rewrite Htok.
  - unfold tokenOK in Hc. destruct (GoStrconv.ParseUint c bitSize) as [cid [e'|]]; [done|].
    by rewrite IH.
Qed.

(** X10. The block "parse point formats", on any catalog. When every token
    is accepted at 8 bits, entry "11" becomes the list of their numbers, in
    order and each below 256, over any earlier value, and every other entry
    is left as it was. When a token is rejected, the block leaves the
    function with a nil plan and the error of the first such token. *)
Theorem point_formats_block extMap pointFormats :
  (forall ids,
     Forall2 (fun p id => GoStrconv.ParseUint p 8 = (id, None)) pointFormats ids ->
     Forall (fun id => 0 <= id < 256) ids /\
     exists extMap',
       parsePointFormats extMap pointFormats = inl extMap' /\
       extMap' !! "11" = Some (SupportedPointsExtension ids) /\
       forall k, k <> "11" -> extMap' !! k = extMap !! k) /\
  (forall pre tok post r e,
     pointFormats = pre ++ tok :: post ->
     Forall (tokenOK 8) pre ->
     GoStrconv.ParseUint tok 8 = (r, Some e) ->
     parsePointFormats extMap pointFormats = inr (Return None (Some (NumErrorOf e)))).
Proof.
  split.
  - intros ids Hids. split.
    + apply Forall_forall. intros id Hid.
      apply list_elem_of_lookup in Hid as [i Hi].
      destruct (Forall2_lookup_r _ _ _ _ _ Hids Hi) as (tok & _ & Htok).
      by apply (ParseUint_range tok 8).
    + eexists. split.
      { rewrite parsePointFormats_parseAll.
        rewrite (parseAll_of_values 8 byte pointFormats ids);
          [reflexivity | lia | intros n Hn; by apply Z.mod_small | done]. }
      split; [by rewrite lookup_insert_eq|].
      intros k Hk. by rewrite lookup_insert_ne.
  - intros pre tok post r e -> Hpre Htok.
    rewrite parsePointFormats_parseAll.
    by rewrite (parseAll_first_error 8 byte pre tok post r e Hpre Htok).
Qed.

Lemma point_formats_block_witness :
  (Forall (fun id => 0 <= id < 256) [0; 1; 2] /\
   exists extMap',
     parsePointFormats genMap ["0"; "1"; "2"] = inl extMap' /\
     extMap' !! "11" = Some (SupportedPointsExtension [0; 1; 2]) /\
     forall k, k <> "11" -> extMap' !! k = genMap !! k) /\
  parsePointFormats genMap ["0"; "256"; "x"] =
    inr (Return None (Some (NumErrorOf (GoStrconv.rangeError "ParseUint" "256")))).
Proof.
  destruct (point_formats_block genMap ["0"; "1"; "2"]) as [Hok _].
  destruct (point_formats_block genMap ["0"; "256"; "x"]) as [_ Hbad].
  split.
  - apply Hok. repeat constructor.
  - apply (Hbad ["0"] "256" ["x"] 255 (GoStrconv.rangeError "ParseUint" "256")).
    + reflexivity.
    + repeat constructor.
    + reflexivity.
Defined.

(** X11. The checks are made in a fixed order and the first failure is the
    one reported: a rejected curve token before anything else; then a
    rejected point-format token; then a rejected version; then an unknown
    extension id; a rejected cipher token only when all of those pass.
    Within a list the first rejected token is the one reported. *)
Theorem first_failure_is_reported m te ja3 ua f :
  splitJA3 ja3 = inl f ->
  (forall pre tok post r e,
     curves f = pre ++ tok :: post -> Forall (tokenOK 16) pre ->
     GoStrconv.ParseUint tok 16 = (r, Some e) ->
     StringToSpec m te ja3 ua = Return None (Some (NumErrorOf e))) /\
  (Forall (tokenOK 16) (curves f) ->
   forall pre tok post r e,
     pointFormats f = pre ++ tok :: post -> Forall (tokenOK 8) pre ->
     GoStrconv.ParseUint tok 8 = (r, Some e) ->
     StringToSpec m te ja3 ua = Return None (Some (NumErrorOf e))) /\
  (Forall (tokenOK 16) (curves f) -> Forall (tokenOK 8) (pointFormats f) ->
   forall r e,
     GoStrconv.ParseUint (version f) 16 = (r, Some e) ->
     StringToSpec m te ja3 ua = Return None (Some (NumErrorOf e))) /\
  (Forall (tokenOK 16) (curves f) -> Forall (tokenOK 8) (pointFormats f) ->
   tokenOK 16 (version f) -> Forall (fun x => x ∈ catalogIDs) (extensions f) ->
   forall pre tok post r e,
     ciphers f = pre ++ tok :: post -> Forall (tokenOK 16) pre ->
     GoStrconv.ParseUint tok 16 = (r, Some e) ->
     StringToSpec m te ja3 ua = Return None (Some (NumErrorOf e))).
Proof.
  intros Hf. rewrite (StringToSpec_compile _ _ _ _ _ Hf). unfold compile.
  split; [|split; [|split]].
  - intros pre tok post r e -> Hpre Htok.
    by rewrite (parseAll_first_error 16 uint16 pre tok post r e Hpre Htok).
  - intros Hcv pre tok post r e -> Hpre Htok.
    destruct (parseAll_inl 16 uint16 _ Hcv) as [curveIDs ->].
    by rewrite (parseAll_first_error 8 byte pre tok post r e Hpre Htok).
  - intros Hcv Hpf r e Hv.
    destruct (parseAll_inl 16 uint16 _ Hcv) as [curveIDs ->].
    destruct (parseAll_inl 8 byte _ Hpf) as [pointIDs ->].
    by rewrite Hv.
  - intros Hcv Hpf Hv Hext pre tok post r e -> Hpre Htok.
    destruct (parseAll_inl 16 uint16 _ Hcv) as [curveIDs ->].
    destruct (parseAll_inl 8 byte _ Hpf) as [pointIDs ->].
    unfold tokenOK in Hv.
    destruct (GoStrconv.ParseUint (version f) 16) as [vid64 [e'|]]; [done|].
    destruct (lookupAll_inl
                (mergedCatalog (greaseOn (parseUserAgent m ua) (receiverOrZero te))
                   (receiverOrZero te) curveIDs pointIDs) (extensions f)) as [tes ->].
    { eapply Forall_impl; [exact Hext|]. intros x Hx. by apply mergedCatalog_lookup_Some. }
    by rewrite (parseAll_first_error 16 uint16 pre tok post r e Hpre Htok).
Qed.

Lemma first_failure_is_reported_witness :
  StringToSpec idLower None "x,y,99999,29-z-w,300" "Chrome" =
    Return None (Some (NumErrorOf (GoStrconv.syntaxError "ParseUint" "z"))) /\
  StringToSpec idLower None "x,y,99999,29,300" "Chrome" =
    Return None (Some (NumErrorOf (GoStrconv.rangeError "ParseUint" "300"))) /\
  StringToSpec idLower None "x,y,99999,29,0" "Chrome" =
    Return None (Some (NumErrorOf (GoStrconv.syntaxError "ParseUint" "x"))) /\
  StringToSpec idLower None "771,4865-y,0,29,0" "Chrome" =
    Return None (Some (NumErrorOf (GoStrconv.syntaxError "ParseUint" "y"))).
Proof.
  assert (Hin : forall k, is_Some (mergedCatalog false zeroTLSExtensions [] [] !! k) ->
                          k ∈ catalogIDs).
  { intros k. apply mergedCatalog_lookup_Some. }
  split; [|split; [|split]].
  - destruct (first_failure_is_reported idLower None "x,y,99999,29-z-w,300" "Chrome"
                (mkJa3Fields "x" ["y"] ["99999"] ["29"; "z"; "w"] ["300"]) eq_refl)
      as (H & _).
    apply (H ["29"] "z" ["w"] 0 _ eq_refl); [repeat constructor | reflexivity].
  - destruct (first_failure_is_reported idLower None "x,y,99999,29,300" "Chrome"
                (mkJa3Fields "x" ["y"] ["99999"] ["29"] ["300"]) eq_refl)
      as (_ & H & _).
    apply (H ltac:(repeat constructor) [] "300" [] 255 _ eq_refl);
      [repeat constructor | reflexivity].
  - destruct (first_failure_is_reported idLower None "x,y,99999,29,0" "Chrome"
                (mkJa3Fields "x" ["y"] ["99999"] ["29"] ["0"]) eq_refl)
      as (_ & _ & H & _).
    apply (H ltac:(repeat constructor) ltac:(repeat constructor) 0 _); reflexivity.
  - destruct (first_failure_is_reported idLower None "771,4865-y,0,29,0" "Chrome"
                (mkJa3Fields "771" ["4865"; "y"] ["0"] ["29"] ["0"]) eq_refl)
      as (_ & _ & _ & H).
    apply (H ltac:(repeat constructor) ltac:(repeat constructor) eq_refl
             ltac:(repeat constructor; apply Hin; vm_compute; eauto)
             ["4865"] "y" [] 0 _ eq_refl); [repeat constructor | reflexivity].
Defined.

(** *** Strings: splitting and matching *)

Lemma string_app_cons c a b : String c a +:+ b = String c (a +:+ b).
Proof. reflexivity. Qed.

Lemma string_app_nil_l s : EmptyString +:+ s = s.
Proof. reflexivity. Qed.

Lemma string_app_nil_r s : s +:+ EmptyString = s.
Proof.
  induction s as [|c s IH]; [done|]. by rewrite string_app_cons, IH.
Qed.

Lemma string_app_assoc a b c : (a +:+ b) +:+ c = a +:+ (b +:+ c).
Proof.
  induction a as [|x a IH]; [done|]. by rewrite !string_app_cons, IH.
Qed.

Lemma string_length_app a b :
  String.length (a +:+ b) = (String.length a + String.length b)%nat.
Proof.
  induction a as [|x a IH]; [done|]. rewrite string_app_cons. simpl. by rewrite IH.
Qed.

Lemma string_app_inv_tail a b c : a +:+ c = b +:+ c -> a = b.
Proof.
  revert b. induction a as [|x a IH]; intros [|y b] H.
  - done.
  - apply (f_equal String.length) in H.
    rewrite string_app_nil_l, string_app_cons in H. simpl in H.
    rewrite string_length_app in H. lia.
  - apply (f_equal String.length) in H.
    rewrite string_app_nil_l, string_app_cons in H. simpl in H.
    rewrite string_length_app in H. lia.
  - rewrite !string_app_cons in H. injection H as -> H. by rewrite (IH b H).
Qed.

Lemma joinWith_cons sep x y l :
  joinWith sep (x :: y :: l) = x +:+ String sep (joinWith sep (y :: l)).
Proof. reflexivity. Qed.

Lemma splitFrom_join s sep cur : joinWith sep (GoStrings.splitFrom s sep cur) = cur +:+ s.
Proof.
  revert cur. induction s as [|c s IH]; intros cur; simpl.
  - by rewrite string_app_nil_r.
  - destruct (Ascii.eqb_spec c sep) as [->|Hne].
    + destruct (splitFrom_cons s sep EmptyString) as (y & l & E).
      rewrite E, joinWith_cons, <- E, IH. reflexivity.
    + rewrite IH, string_app_assoc. reflexivity.
Qed.

Lemma hasByte_app c a b : hasByte c (a +:+ b) = hasByte c a || hasByte c b.
Proof.
  induction a as [|x a IH]; [done|].
  rewrite string_app_cons. simpl. by rewrite IH, orb_assoc.
Qed.

Lemma splitFrom_pieces s sep cur :
  hasByte sep cur = false ->
  Forall (fun x => hasByte sep x = false) (GoStrings.splitFrom s sep cur).
Proof.
  revert cur. induction s as [|c s IH]; intros cur Hcur; simpl.
  - by constructor.
  - destruct (Ascii.eqb_spec c sep) as [->|Hne].
    + constructor; [done | by apply IH].
    + apply IH. rewrite hasByte_app, Hcur. simpl.
      rewrite orb_false_r. by apply Ascii.eqb_neq.
Qed.

Lemma splitFrom_piece x rest sep cur :
  hasByte sep x = false ->
  GoStrings.splitFrom (x +:+ rest) sep cur = GoStrings.splitFrom rest sep (cur +:+ x).
Proof.
  revert cur. induction x as [|c x IH]; intros cur Hx.
  - by rewrite string_app_nil_l, string_app_nil_r.
  - simpl in Hx. apply orb_false_elim in Hx as [Hc Hx].
    rewrite string_app_cons. cbn [GoStrings.splitFrom].
    rewrite Hc, (IH _ Hx), string_app_assoc. reflexivity.
Qed.

(** X12. [strings.Split] and joining with the separator undo each other:
    the pieces of a split, joined, give the string back, and no piece
    contains the separator; a non-empty list of pieces without the
    separator, joined and split, gives the list back. *)
Theorem Split_join_round_trip sep :
  (forall s, joinWith sep (GoStrings.Split s sep) = s) /\
  (forall s, Forall (fun x => hasByte sep x = false) (GoStrings.Split s sep)) /\
  (forall toks,
     toks <> [] -> Forall (fun x => hasByte sep x = false) toks ->
     GoStrings.Split (joinWith sep toks) sep = toks).
Proof.
  split; [|split].
  - intros s. apply (splitFrom_join s sep EmptyString).
  - intros s. by apply splitFrom_pieces.
  - intros toks Hne Htoks. unfold GoStrings.Split.
    induction Htoks as [|x l Hx Hl IH]; [done|]. clear Hne.
    destruct l as [|y l].
    + cbn [joinWith]. rewrite <- (string_app_nil_r x) at 1.
      by rewrite (splitFrom_piece x EmptyString sep EmptyString Hx).
    + rewrite joinWith_cons, (splitFrom_piece x _ sep EmptyString Hx).
      cbn [GoStrings.splitFrom]. rewrite Ascii.eqb_refl, string_app_nil_l.
      by rewrite IH.
Qed.

Lemma Split_join_round_trip_witness :
  GoStrings.Split (joinWith "-" ["4865"; EmptyString; "49195"]) "-" =
  ["4865"; EmptyString; "49195"].
Proof.
  apply (proj2 (proj2 (Split_join_round_trip "-"))); [discriminate | repeat constructor].
Defined.

Lemma Split_blank s sep : GoStrings.Split s sep = [EmptyString] <-> s = EmptyString.
Proof.
  split; [|by intros ->].
  intros H. pose proof (splitFrom_join s sep EmptyString) as Hj.
  change (GoStrings.splitFrom s sep EmptyString) with (GoStrings.Split s sep) in Hj.
  rewrite H, string_app_nil_l in Hj. by rewrite <- Hj.
Qed.

Lemma dropBlank_nil s sep : dropBlank (GoStrings.Split s sep) = [] <-> s = EmptyString.
Proof.
  split; [|by intros ->].
  destruct (Split_cons s sep) as (x & l & E). rewrite E. unfold dropBlank.
  destruct l as [|y l]; [|done].
  destruct (String.eqb_spec x EmptyString) as [->|]; [|done].
  intros _. by apply (Split_blank s sep).
Qed.

(** X13. Which list fields can come out empty: the curve list and the
    point-format list are empty exactly when their field is the empty
    string; the cipher list and the extension list are never empty; and no
    token of any of the four lists contains a "-". *)
Theorem list_fields_of_fingerprint ja3 v cf ef cvf pff rest f :
  GoStrings.Split ja3 "," = v :: cf :: ef :: cvf :: pff :: rest ->
  splitJA3 ja3 = inl f ->
  (curves f = [] <-> cvf = EmptyString) /\
  (pointFormats f = [] <-> pff = EmptyString) /\
  ciphers f <> [] /\ extensions f <> [] /\
  Forall (fun x => hasByte "-" x = false)
    (ciphers f ++ extensions f ++ curves f ++ pointFormats f).
Proof.
  intros Hs Hf. rewrite (splitJA3_fields _ _ _ _ _ _ _ Hs) in Hf.
  injection Hf as <-. cbn [curves pointFormats ciphers extensions].
  split; [apply dropBlank_nil|]. split; [apply dropBlank_nil|].
  split; [by destruct (Split_cons cf "-") as (x & l & ->)|].
  split; [by destruct (Split_cons ef "-") as (x & l & ->)|].
  assert (Hd : forall s, Forall (fun x => hasByte "-" x = false)
                           (dropBlank (GoStrings.Split s "-"))).
  { intros s. pose proof (splitFrom_pieces s "-" EmptyString eq_refl) as Hp.
    unfold dropBlank. change (GoStrings.splitFrom s "-" EmptyString)
      with (GoStrings.Split s "-") in Hp.
    repeat case_match; done || constructor. }
  rewrite !Forall_app. repeat split; try apply Hd; by apply splitFrom_pieces.
Qed.

Lemma list_fields_of_fingerprint_witness :
  (curves (mkJa3Fields "771" ["4865"] ["0"] [] ["0"; EmptyString]) = [] <->
   EmptyString = EmptyString) /\
  (pointFormats (mkJa3Fields "771" ["4865"] ["0"] [] ["0"; EmptyString]) = [] <->
   "0-" = EmptyString).
Proof.
  destruct (list_fields_of_fingerprint "771,4865,0,,0-" "771" "4865" "0" EmptyString "0-" []
              (mkJa3Fields "771" ["4865"] ["0"] [] ["0"; EmptyString]) eq_refl eq_refl)
    as (H1 & H2 & _).
  split; [exact H1 | exact H2].
Defined.

Lemma HasPrefix_iff s p :
  GoStrings.HasPrefix s p = true <-> exists post, s = p +:+ post.
Proof.
  revert s. induction p as [|c p IH]; intros s.
  - split; [intros _; by exists s | intros _; by destruct s].
  - destruct s as [|x s]; simpl.
    + split; [done | intros [post H]; rewrite string_app_cons in H; done].
    + destruct (Ascii.eqb_spec x c) as [->|Hne].
      * rewrite IH. split; intros [post H]; exists post.
        -- by rewrite string_app_cons, H.
        -- rewrite string_app_cons in H. by injection H.
      * split; [done|]. intros [post H]. rewrite string_app_cons in H. by injection H.
Qed.

Lemma Contains_nil substr :
  GoStrings.Contains EmptyString substr = GoStrings.HasPrefix EmptyString substr || false.
Proof. reflexivity. Qed.

Lemma Contains_cons c s substr :
  GoStrings.Contains (String c s) substr =
  GoStrings.HasPrefix (String c s) substr || GoStrings.Contains s substr.
Proof. reflexivity. Qed.

(** [strings.Contains(s, substr)] holds exactly when [s] is some prefix,
    then [substr], then some suffix. *)
Lemma Contains_iff_substring s substr :
  GoStrings.Contains s substr = true <-> exists pre post, s = pre +:+ substr +:+ post.
Proof.
  split.
  - induction s as [|c s IH].
    + rewrite Contains_nil, orb_false_r. intros [post H]%HasPrefix_iff.
      exists EmptyString, post. by rewrite string_app_nil_l.
    + rewrite Contains_cons. intros [[post H]%HasPrefix_iff|H]%orb_true_iff.
      * exists EmptyString, post. by rewrite string_app_nil_l.
      * destruct (IH H) as (pre & post & ->). exists (String c pre), post.
        by rewrite string_app_cons.
  - intros (pre & post & ->). induction pre as [|c pre IH].
    + rewrite string_app_nil_l.
      assert (Hp : GoStrings.HasPrefix (substr +:+ post) substr = true)
        by (apply HasPrefix_iff; eauto).
      destruct (substr +:+ post);
        [rewrite Contains_nil | rewrite Contains_cons]; by rewrite Hp.
    + rewrite string_app_cons, Contains_cons, IH. apply orb_true_r.
Qed.

Lemma lowerASCII_app a b :
  GoStrings.lowerASCII (a +:+ b) = GoStrings.lowerASCII a +:+ GoStrings.lowerASCII b.
Proof.
  induction a as [|c a IH]; [done|].
  rewrite string_app_cons. simpl. by rewrite IH, string_app_cons.
Qed.

Lemma lowerASCII_split s a b :
  GoStrings.lowerASCII s = a +:+ b ->
  exists s1 s2, s = s1 +:+ s2 /\ GoStrings.lowerASCII s1 = a /\ GoStrings.lowerASCII s2 = b.
Proof.
  revert s. induction a as [|c a IH]; intros s H.
  - exists EmptyString, s. by rewrite string_app_nil_l in H.
  - rewrite string_app_cons in H. destruct s as [|x s]; [done|].
    simpl in H. injection H as Hx H.
    destruct (IH s H) as (s1 & s2 & -> & H1 & H2).
    exists (String x s1), s2. rewrite string_app_cons. simpl. by rewrite Hx, H1.
Qed.

Lemma Contains_lowerASCII w ua :
  GoStrings.Contains (GoStrings.lowerASCII ua) w = true <-> caseVariantOccurs w ua.
Proof.
  rewrite Contains_iff_substring. unfold caseVariantOccurs. split.
  - intros (pre & post & H).
    apply lowerASCII_split in H as (s1 & s23 & -> & H1 & H).
    apply lowerASCII_split in H as (s2 & s3 & -> & H2 & H3). eauto.
  - intros (pre & x & post & -> & Hx).
    exists (GoStrings.lowerASCII pre), (GoStrings.lowerASCII post).
    by rewrite !lowerASCII_app, Hx.
Qed.

(** X14. The classifier on an ASCII identity string, read off the string
    itself: it answers firefox exactly when the string contains "firefox"
    in some mix of upper and lower case and contains neither "chrome" nor
    "applewebkit" in any mix of case; in every other case, the empty and
    the unrecognised string included, it answers chrome. *)
Theorem parseUserAgent_by_case_variants m ua :
  GoStrings.isASCII ua = true ->
  (parseUserAgent m ua = firefox <->
   caseVariantOccurs "firefox" ua /\
   ~ caseVariantOccurs "chrome" ua /\ ~ caseVariantOccurs "applewebkit" ua) /\
  (parseUserAgent m ua <> firefox -> parseUserAgent m ua = chrome).
Proof.
  intros Hascii. unfold parseUserAgent, ToLower, GoStrings.ToLower. rewrite Hascii.
  rewrite <- !Contains_lowerASCII.
  destruct (GoStrings.Contains (GoStrings.lowerASCII ua) "chrome");
    [split; [split; [done | intros (_ & H & _); by destruct H] | done]|].
  destruct (GoStrings.Contains (GoStrings.lowerASCII ua) "applewebkit");
    [split; [split; [done | intros (_ & _ & H); by destruct H] | done]|].
  destruct (GoStrings.Contains (GoStrings.lowerASCII ua) "firefox").
  - split; [split; [done | done] | done].
  - split; [split; [done | intros (H & _); done] | done].
Qed.

Lemma parseUserAgent_by_case_variants_witness :
  parseUserAgent idLower "Mozilla/5.0 (X11; rv:120.0) Gecko/20100101 FireFox/120.0" = firefox.
Proof.
  apply (proj1 (parseUserAgent_by_case_variants idLower
                  "Mozilla/5.0 (X11; rv:120.0) Gecko/20100101 FireFox/120.0" eq_refl)).
  rewrite <- !Contains_lowerASCII. repeat split; discriminate || reflexivity.
Defined.

(** *** The extension error *)

(** X15. The message of the extension error is the fixed text around the
    id, and it tells the ids apart: two errors with the same message are
    errors of the same id. *)
Theorem errExtensionNotExist_Error_injective info1 info2 :
  errExtensionNotExist_Error (raiseExtensionError info1) =
  errExtensionNotExist_Error (raiseExtensionError info2) ->
  info1 = info2.
Proof.
  unfold errExtensionNotExist_Error, raiseExtensionError. cbn [Context].
  intros H. apply (inj (String.app "Extension {{ ")) in H.
  by apply string_app_inv_tail in H.
Qed.

Lemma errExtensionNotExist_Error_injective_witness :
  errExtensionNotExist_Error (raiseExtensionError "99999") =
    "Extension {{ 99999 }} is not Supported by requests please raise an issue" /\
  "99999" = "99999".
Proof.
  split; [reflexivity|].
  apply (errExtensionNotExist_Error_injective "99999" "99999"). reflexivity.
Defined.

Lemma catalogIDs_supportedIDs x : x ∈ catalogIDs <-> x ∈ supportedIDs.
Proof.
  unfold catalogIDs, genMap, supportedIDs.
  rewrite dom_list_to_map_L, !elem_of_union, !elem_of_singleton, elem_of_list_to_set.
  cbn [fmap list_fmap fst].
  rewrite !elem_of_cons, !elem_of_nil. tauto.
Qed.

(** X16. The ids the compiler supports are the thirty of [supportedIDs],
    compared as strings: the error of an unknown extension is returned only
    for an id of the fingerprint that is not one of them, "10" and "11"
    never being reported although [genMap] has no entry for them. *)
Theorem extension_error_only_for_unsupported m te ja3 ua w :
  StringToSpec m te ja3 ua = Return None (Some (ExtensionNotExistOf w)) ->
  exists f,
    splitJA3 ja3 = inl f /\
    (Context w ∈ extensions f) /\
    (Context w ∉ supportedIDs).
Proof.
  intros H. apply StringToSpec_plan_fields in H as (f & Hf & H).
  exists f. split; [done|]. unfold compile in H.
  destruct (parseAll 16 uint16 (curves f)) as [curveIDs|]; [|done].
  destruct (parseAll 8 byte (pointFormats f)) as [pointIDs|]; [|done].
  destruct (GoStrconv.ParseUint (version f) 16) as [? [?|]]; [done|].
  destruct (lookupAll _ (extensions f)) as [tes|x] eqn:Hl.
  - destruct (parseAll 16 uint16 (ciphers f)); done.
  - injection H as <-. cbn [Context raiseExtensionError].
    apply lookupAll_inr in Hl as (pre & post & Hes & _ & Hx).
    split; [rewrite Hes, elem_of_app, elem_of_cons; auto|].
    rewrite <- catalogIDs_supportedIDs. by apply mergedCatalog_lookup_None in Hx.
Qed.

Lemma extension_error_only_for_unsupported_witness :
  StringToSpec idLower None "771,4865,0-010,29,0" "Firefox" =
    Return None (Some (ExtensionNotExistOf (raiseExtensionError "010"))) /\
  exists f,
    splitJA3 "771,4865,0-010,29,0" = inl f /\
    ("010" ∈ extensions f) /\ ("010" ∉ supportedIDs).
Proof.
  split; [reflexivity|].
  exact (extension_error_only_for_unsupported idLower None "771,4865,0-010,29,0" "Firefox"
           (raiseExtensionError "010") eq_refl).
Defined.

(** *** Numbers that do not fit *)

Lemma digitLoop_too_large s0 maxVal s n r :
  0 <= n <= maxVal -> maxVal < 2 ^ 32 ->
  decimalFrom n s = Some r -> maxVal < r ->
  GoStrconv.digitLoop s0 (GoStrconv.maxUint64 / 10 + 1) maxVal s n =
  (maxVal, Some (GoStrconv.rangeError "ParseUint" s0)).
Proof.
  change (GoStrconv.maxUint64 / 10 + 1) with 1844674407370955162.
  change (2 ^ 32) with 4294967296.
  revert n. induction s as [|c s IH]; intros n Hn Hmax; simpl.
  - intros [= <-]. lia.
  - unfold isDigit.
    destruct (Z.leb_spec 48 (GoStrings.byteOf c)) as [H48|]; [|done].
    destruct (Z.leb_spec (GoStrings.byteOf c) 57) as [H57|]; [|done].
    simpl. intros Hd Hr.
    destruct (Z.geb_spec n 1844674407370955162) as [?|_]; [lia|].
    unfold GoStrconv.uint64. change (2 ^ 64) with 18446744073709551616.
    rewrite (Z.mod_small (n * 10)) by lia.
    rewrite (Z.mod_small (n * 10 + _)) by lia.
    destruct (Z.ltb_spec (n * 10 + (GoStrings.byteOf c - 48)) (n * 10)) as [?|_]; [lia|].
    simpl.
    destruct (Z.gtb_spec (n * 10 + (GoStrings.byteOf c - 48)) maxVal) as [Hgt|Hle]; [done|].
    apply IH; [lia | done | done | done].
Qed.

(** X17. How [ParseUint] rejects, at 8 and at 16 bits (at up to 32 bits):
    the empty token is a syntax error; a token of decimal digits whose
    number does not fit the bit size is a range error, returned with the
    largest value of that size; both errors carry the token. *)
Theorem ParseUint_rejections bitSize :
  0 < bitSize <= 32 ->
  GoStrconv.ParseUint EmptyString bitSize =
    (0, Some (GoStrconv.syntaxError "ParseUint" EmptyString)) /\
  forall s n,
    decimalValue s = Some n -> 2 ^ bitSize - 1 < n ->
    GoStrconv.ParseUint s bitSize = (2 ^ bitSize - 1, Some (GoStrconv.rangeError "ParseUint" s)).
Proof.
  intros Hb. split; [reflexivity|].
  intros s n Hs Hn. unfold GoStrconv.ParseUint, decimalValue in *.
  destruct s as [|c s]; [done|].
  change (String.eqb (String c s) EmptyString) with false. cbv iota.
  destruct (Z.ltb_spec bitSize 0); [lia|].
  destruct (Z.gtb_spec bitSize 64); [lia|]. cbn [orb].
  destruct (Z.eqb_spec bitSize 0); [lia|].
  rewrite maxVal_bits by lia.
  assert (0 < 2 ^ bitSize) by (apply Z.pow_pos_nonneg; lia).
  assert (2 ^ bitSize <= 2 ^ 32) by (apply Z.pow_le_mono_r; lia).
  apply (digitLoop_too_large _ _ _ 0 n); [lia | lia | done | done].
Qed.

Lemma ParseUint_rejections_witness :
  GoStrconv.ParseUint "0065536" 16 = (65535, Some (GoStrconv.rangeError "ParseUint" "0065536")).
Proof.
  apply (proj2 (ParseUint_rejections 16 ltac:(lia)) "0065536" 65536); [reflexivity | lia].
Defined.

(** *** What a failure depends on *)

Lemma lookupAll_same_ids extMap extMap' es x :
  dom extMap = dom extMap' ->
  lookupAll extMap es = inr x -> lookupAll extMap' es = inr x.
Proof.
  intros Hdom (pre & post & -> & Hpre & Hx)%lookupAll_inr.
  apply lookupAll_inr. exists pre, post. split; [done|]. split.
  - eapply Forall_impl; [exact Hpre|]. intros e He.
    apply elem_of_dom. rewrite <- Hdom. by apply elem_of_dom.
  - apply not_elem_of_dom. rewrite <- Hdom. by apply not_elem_of_dom.
Qed.

Lemma lookupAll_same_ids_inl extMap extMap' es tes :
  dom extMap = dom extMap' ->
  lookupAll extMap es = inl tes -> exists tes', lookupAll extMap' es = inl tes'.
Proof.
  intros Hdom Hl. apply lookupAll_inl. apply lookupAll_inl_inv in Hl.
  apply Forall_forall. intros e He. apply list_elem_of_lookup in He as [i Hi].
  destruct (Forall2_lookup_l _ _ _ _ _ Hl Hi) as (x & _ & Hx).
  apply elem_of_dom. rewrite <- Hdom. apply elem_of_dom. by rewrite Hx.
Qed.

(** X18. Whether a call fails, and how, depends on the fingerprint alone:
    an outcome that is not a plan (a panic or a returned error) is the
    outcome for every identity string and every receiver. Neither the
    identity nor an override can make an unknown id known or a rejected
    token accepted. *)
Theorem failure_depends_on_fingerprint_only m te te' ja3 ua ua' o :
  (forall plan, o <> Return (Some plan) None) ->
  StringToSpec m te ja3 ua = o ->
  StringToSpec m te' ja3 ua' = o.
Proof.
  intros Hno <-.
  destruct (StringToSpec_cases m te ja3 ua) as [[Hlt ->]|(f & Hf & Hc)].
  { by apply StringToSpec_short. }
  rewrite Hc in Hno |- *. rewrite (StringToSpec_compile _ _ _ _ _ Hf).
  unfold compile in *.
  destruct (parseAll 16 uint16 (curves f)) as [curveIDs|]; [|done].
  destruct (parseAll 8 byte (pointFormats f)) as [pointIDs|]; [|done].
  destruct (GoStrconv.ParseUint (version f) 16) as [? [?|]]; [done|].
  set (c := mergedCatalog (greaseOn (parseUserAgent m ua) (receiverOrZero te))
              (receiverOrZero te) curveIDs pointIDs) in *.
  set (c' := mergedCatalog (greaseOn (parseUserAgent m ua') (receiverOrZero te'))
               (receiverOrZero te') curveIDs pointIDs).
  assert (Hdom : dom c = dom c') by (unfold c, c'; by rewrite !mergedCatalog_dom).
  destruct (lookupAll c (extensions f)) as [tes|x] eqn:Hl.
  - destruct (lookupAll_same_ids_inl _ _ _ _ Hdom Hl) as [tes' ->].
    destruct (parseAll 16 uint16 (ciphers f)) as [cipherIDs|]; [|done].
    by destruct (Hno _ eq_refl).
  - by rewrite (lookupAll_same_ids _ _ _ _ Hdom Hl).
Qed.

Lemma failure_depends_on_fingerprint_only_witness :
  StringToSpec idLower None "771,4865,0-13-777,29,0" "Chrome" =
    Return None (Some (ExtensionNotExistOf (raiseExtensionError "777"))) /\
  StringToSpec idLower
    (Some (mkTLSExtensions (Some [PKCS1WithSHA256]) None None None None None None None
             true EmptyString))
    "771,4865,0-13-777,29,0" "Firefox" =
    Return None (Some (ExtensionNotExistOf (raiseExtensionError "777"))).
Proof.
  split; [reflexivity|].
  apply (failure_depends_on_fingerprint_only idLower None _ "771,4865,0-13-777,29,0"
           "Chrome" "Firefox"); [discriminate | reflexivity].
Defined.
